(** * README generator backend: prompt builder, generation client, agent

    A shallow embedding of [backend/docgen_agent.py], [backend/gemini_client.py]
    and of the request model of [backend/app.py].

    Conventions of the embedding.
    - A Python [str] is a [string] holding its UTF-8 encoding; concatenation,
      [join] and formatting commute with that encoding, and [strip] is written
      over the encoded white space code points.
    - A Python [int] is a [Z].
    - The analysis [dict] is a record whose fields are [option]s: [None] is a
      key the dict does not hold (what [dict.get] answers with its default),
      [Some v] a value of the type the request model declares for the key.
    - The provider (the [google.generativeai] package and the service behind
      it) is a record of functions, a parameter of every run.
    - Effects are a small monad over the process state that also collects the
      network calls made and carries a raised exception.
    - Console output ([print]) is not part of the model. *)

From Stdlib Require Import String Ascii List ZArith NArith QArith DecimalString Lia Bool.
Import ListNotations.
Close Scope Q_scope.
Local Open Scope string_scope.
Set Warnings "-register-all".

(** ** Python values *)

Module py.

(** The line feed and the double quote, which the literals below splice in. *)
Definition nl : string := String "010"%char EmptyString.
Definition dq : string := String "034"%char EmptyString.

(** [bool(s)] of a [str]: only the empty string is false. *)
Definition truthy (s : string) : bool :=
  match s with EmptyString => false | String _ _ => true end.

(** [x or y] on two [str]. *)
Definition or (x y : string) : string := if truthy x then x else y.

(** [bool(v)] of a value that is [None] or a [str]. *)
Definition truthy_opt (v : option string) : bool :=
  match v with None => false | Some s => truthy s end.

(** [x or y] where both are [None] or a [str]. *)
Definition or_opt (x y : option string) : option string :=
  if truthy_opt x then x else y.

(** [d.get(key, default)] for a key held as an [option]. *)
Definition get {A : Type} (field : option A) (default : A) : A :=
  match field with Some v => v | None => default end.

(** [sep.join(items)]. *)
Definition join (sep : string) (items : list string) : string :=
  String.concat sep items.

(** [items[:n]]. *)
Definition slice_to {A : Type} (n : nat) (items : list A) : list A :=
  firstn n items.

(** [elem in items] for a list of [str]. *)
Definition contains (elem : string) (items : list string) : bool :=
  existsb (String.eqb elem) items.

(** [str(i)], also what an f-string prints for an [int]. *)
Definition str_of_int (i : Z) : string :=
  NilZero.string_of_int (Z.to_int i).

(** *** [str.strip()]

    White space for [str.strip] is the code points for which
    [str.isspace] holds. *)
Definition whitespace_code_points : list N :=
  [ 0x09; 0x0A; 0x0B; 0x0C; 0x0D; 0x1C; 0x1D; 0x1E; 0x1F; 0x20; 0x85; 0xA0;
    0x1680; 0x2000; 0x2001; 0x2002; 0x2003; 0x2004; 0x2005; 0x2006; 0x2007;
    0x2008; 0x2009; 0x200A; 0x2028; 0x2029; 0x202F; 0x205F; 0x3000 ]%N.

Definition bytes (l : list N) : string :=
  string_of_list_ascii (map ascii_of_N l).

(** UTF-8 encoding of one code point. *)
Definition utf8 (cp : N) : string :=
  (if cp <? 0x80 then bytes [cp]
   else if cp <? 0x800 then bytes [0xC0 + cp / 0x40; 0x80 + cp mod 0x40]
   else if cp <? 0x10000 then
     bytes [0xE0 + cp / 0x1000; 0x80 + (cp / 0x40) mod 0x40; 0x80 + cp mod 0x40]
   else
     bytes [0xF0 + cp / 0x40000; 0x80 + (cp / 0x1000) mod 0x40;
            0x80 + (cp / 0x40) mod 0x40; 0x80 + cp mod 0x40])%N.

Definition whitespace : list string := map utf8 whitespace_code_points.

Definition reverse (s : string) : string :=
  string_of_list_ascii (rev (list_ascii_of_string s)).

(** [drop_prefix p s] is what follows [p] in [s], when [s] starts with [p]. *)
Fixpoint drop_prefix (p s : string) : option string :=
  match p, s with
  | EmptyString, _ => Some s
  | String a p', String b s' => if Ascii.eqb a b then drop_prefix p' s' else None
  | String _ _, EmptyString => None
  end.

Fixpoint drop_any (ps : list string) (s : string) : option string :=
  match ps with
  | [] => None
  | p :: ps' =>
      match drop_prefix p s with
      | Some rest => Some rest
      | None => drop_any ps' s
      end
  end.

(** Drops leading occurrences of the strings of [ps], at most [fuel] of
    them; [String.length s] is enough fuel when no string of [ps] is empty
    ([lstrip_with_done] below). *)
Fixpoint lstrip_fuel (ps : list string) (fuel : nat) (s : string) : string :=
  match fuel with
  | O => s
  | S fuel' =>
      match drop_any ps s with
      | Some rest => lstrip_fuel ps fuel' rest
      | None => s
      end
  end.

Definition lstrip_with (ps : list string) (s : string) : string :=
  lstrip_fuel ps (String.length s) s.

Definition lstrip (s : string) : string := lstrip_with whitespace s.

Definition rstrip (s : string) : string :=
  reverse (lstrip_with (map reverse whitespace) (reverse s)).

Definition strip (s : string) : string := rstrip (lstrip s).

(** *** Exceptions

    An instance of a class derived from [Exception], which is what
    [except Exception] catches: the name of its class and the message
    [str(e)] prints. *)
Record exn : Type := Raise { class : string; str : string }.

Definition ValueError (message : string) : exn := Raise "ValueError" message.
Definition Exception (message : string) : exn := Raise "Exception" message.

(** Values of a JSON object, for the free-form mappings of the request. *)
Inductive json : Type :=
| JNull
| JBool (b : bool)
| JInt (i : Z)
| JStr (s : string)
| JList (items : list json)
| JDict (entries : list (string * json)).

End py.

(** ** The request model of [app.py] and the dict the agent receives *)

(** [ProjectAnalysis.model_dump()]: the keys of the request, each absent or
    holding a value of its declared type. *)
Record analysis_dict : Type := {
  name : option string;
  structure : option (list string);
  languages : option (list string);
  frameworks : option (list string);
  fileCount : option Z;
  estimatedLOC : option Z;
  apiKey : option string;
  description : option string;
  dependencies : option (list (string * py.json));
  scripts : option (list (string * py.json))
}.

(** ** The prompt template of [DocGenAgent._build_prompt] *)

Module template.
Import py.

(** The text before the first placeholder. *)
Definition persona : string :=
  "You are a senior technical writer and developer advocate. Generate a comprehensive, professional README.md file that follows GitHub best practices.

PROJECT ANALYSIS:
- Name: ".

(** The text after the last placeholder. *)
Definition requirements : string :=
  "

REQUIREMENTS FOR THE README:

1. **Title & Description**
   - Use an engaging emoji that fits the project type
   - Write a clear, compelling 2-3 sentence description
   - Explain WHAT the project does and WHY it exists

2. **Features Section** (✨ Features)
   - List 4-6 key features based on the project structure
   - Be specific (e.g., " ++ dq ++ "User authentication with JWT" ++ dq ++ " not just " ++ dq ++ "Authentication" ++ dq ++ ")
   - Use bullet points with descriptive icons/emojis

3. **Tech Stack Section** (🛠️ Tech Stack)
   - Organize by category: Frontend, Backend, Database, Tools
   - Only include technologies you can confirm from the structure
   - Be specific about versions if visible in package files

4. **Architecture & Design** (🏗️ Architecture)
   - Describe the high-level architecture (e.g., Client-Server, MVC)
   - If frontend/backend exists, explain their relationship
   - Mention key design patterns observed (e.g., Component-based, Service-layer)

5. **Getting Started** (🚀 Getting Started)
   - Include Prerequisites section
   - Provide clear Installation steps
   - Add Running the Application steps
   - If it's a full-stack app, show both frontend and backend setup

6. **Project Structure** (📁 Project Structure)
   - Show a clean tree view of main directories
   - Add brief comments explaining key folders
   - Keep it concise (top-level only)

7. **API Documentation** (📚 API Documentation) - ONLY if backend detected
   - Mention that API docs are available
   - Suggest where to find endpoint details

8. **Environment Variables** - ONLY if .env files detected
   - List required environment variables
   - Provide example values (not real secrets)

9. **Contributing** (🤝 Contributing)
   - Brief, welcoming contribution guidelines

10. **License** (📄 License)
   - Mention license if detected, otherwise use MIT

STYLE GUIDELINES:
- Use emojis strategically (one per section header)
- Use code blocks with proper language tags
- Use tables for structured data when appropriate
- Keep paragraphs short and scannable
- Use **bold** for emphasis
- Use `code` for technical terms

CRITICAL RULES:
- DO NOT invent features that aren't evident from the structure
- DO NOT add placeholder text like " ++ dq ++ "Add your description here" ++ dq ++ "
- DO NOT include badges (they'll be added separately)
- DO NOT make assumptions about deployment or testing unless files indicate it
- DO write in present tense
- DO be specific and actionable

OUTPUT FORMAT:
Generate ONLY the markdown content. Do not wrap in ```markdown blocks.
Start directly with the # title.

IMPORTANT: You MUST generate the COMPLETE README covering ALL sections from 1 to 10. Do not stop early. Ensure the response is complete.

Generate the README now:".

End template.

(** ** The provider, as [gemini_client.py] uses it *)

Module genai.

(** An entry of [genai.list_models()]. *)
Record Model : Type := {
  name : string;
  supported_generation_methods : list string
}.

(** The [generation_config] of a generation request. *)
Record GenerationConfig : Type := {
  temperature : Q;
  top_p : Q;
  top_k : Z;
  max_output_tokens : Z
}.

(** What a generation request answers: [text] is [None] or a [str]. *)
Record Response : Type := { text : option string }.

(** [genai.GenerativeModel(model_name)]: a handle on a model name; making
    one calls nobody. *)
Record GenerativeModel : Type := { model_name : string }.

(** The service. Each function is given the credential the session was
    configured with and answers with the value returned or the exception
    raised; the generation request also sees the deadline of its
    [request_options], [None] when the caller sets none. *)
Record Provider : Type := {
  list_models : option string -> py.exn + list Model;
  generate_content :
    option string -> string -> string -> GenerationConfig -> option Z ->
    py.exn + option Response
}.

End genai.

(** ** Effects *)

(** The process: the [GEMINI_API_KEY] variable of its environment and the
    credential [genai.configure] stored last. *)
Record Process : Type := {
  environ_GEMINI_API_KEY : option string;
  configured_api_key : option string
}.

(** A call that leaves the process. *)
Inductive NetworkCall : Type :=
| ListModels (credential : option string)
| GenerateContent (credential : option string) (model prompt : string)
    (config : genai.GenerationConfig) (deadline : option Z).

(** A run: the calls made in order, the process afterwards, and the
    exception raised or the value returned. *)
Record Run (A : Type) : Type := {
  calls : list NetworkCall;
  after : Process;
  outcome : py.exn + A
}.
Arguments calls {A} _.
Arguments after {A} _.
Arguments outcome {A} _.

Definition M (A : Type) : Type := Process -> Run A.

Definition ret {A : Type} (a : A) : M A :=
  fun p => {| calls := []; after := p; outcome := inr a |}.

Definition raise {A : Type} (e : py.exn) : M A :=
  fun p => {| calls := []; after := p; outcome := inl e |}.

Definition bind {A B : Type} (m : M A) (k : A -> M B) : M B :=
  fun p =>
    let r := m p in
    match outcome r with
    | inl e => {| calls := calls r; after := after r; outcome := inl e |}
    | inr a =>
        let r' := k a (after r) in
        {| calls := calls r ++ calls r'; after := after r'; outcome := outcome r' |}
    end.

(** [try: body except Exception as e: handler e]. *)
Definition try_except {A : Type} (body : M A) (handler : py.exn -> M A) : M A :=
  fun p =>
    let r := body p in
    match outcome r with
    | inl e =>
        let r' := handler e (after r) in
        {| calls := calls r ++ calls r'; after := after r'; outcome := outcome r' |}
    | inr a => r
    end.

Declare Scope py_scope.
Delimit Scope py_scope with py.
Notation "x <- m ;; k" := (bind m (fun x => k))
  (at level 61, m at next level, right associativity) : py_scope.
Notation "m ;; k" := (bind m (fun _ => k))
  (at level 61, right associativity) : py_scope.

(** [os.getenv('GEMINI_API_KEY')]. *)
Definition getenv_GEMINI_API_KEY : M (option string) :=
  fun p => {| calls := []; after := p; outcome := inr (environ_GEMINI_API_KEY p) |}.

Section Remote.

Variable provider : genai.Provider.

(** [genai.configure(api_key=...)]. *)
Definition configure (api_key : string) : M unit :=
  fun p =>
    {| calls := [];
       after := {| environ_GEMINI_API_KEY := environ_GEMINI_API_KEY p;
                   configured_api_key := Some api_key |};
       outcome := inr tt |}.

(** [list(genai.list_models())]. *)
Definition list_models : M (list genai.Model) :=
  fun p =>
    {| calls := [ListModels (configured_api_key p)];
       after := p;
       outcome := genai.list_models provider (configured_api_key p) |}.

(** [model.generate_content(prompt, generation_config=..., request_options=...)]. *)
Definition model_generate_content (model : genai.GenerativeModel)
    (prompt : string) (generation_config : genai.GenerationConfig)
    (deadline : option Z) : M (option genai.Response) :=
  fun p =>
    {| calls := [GenerateContent (configured_api_key p) (genai.model_name model)
                   prompt generation_config deadline];
       after := p;
       outcome := genai.generate_content provider (configured_api_key p)
                    (genai.model_name model) prompt generation_config deadline |}.

End Remote.

(** ** [gemini_client.py] *)

Module gemini_client.

(** An instance of [GeminiClient]: its [self.model]. *)
Record GeminiClient : Type := { model : genai.GenerativeModel }.

(** The sampling parameters [generate_content] sends with every request. *)
Definition generation_config : genai.GenerationConfig :=
  {| genai.temperature := 3 # 10;
     genai.top_p := 9 # 10;
     genai.top_k := 40;
     genai.max_output_tokens := 2048 |}.

(** The value of [timeout] when the caller passes none. *)
Definition timeout_default : Z := 60.

Section WithProvider.

Variable provider : genai.Provider.

Local Open Scope py_scope.

(** [GeminiClient.__init__(self, api_key)]. The handler of its [try]
    raises the exception it caught again. *)
Definition __init__ (api_key : string) : M GeminiClient :=
  configure api_key ;;
  try_except
    (available_models <- list_models provider ;;
     let content_models :=
       filter
         (fun m => py.contains "generateContent"
                     (genai.supported_generation_methods m))
         available_models in
     match content_models with
     | [] =>
         raise (py.ValueError "No models available that support generateContent")
     | selected_model :: _ =>
         ret {| model := {| genai.model_name := genai.name selected_model |} |}
     end)
    (fun e => raise e).

(** [GeminiClient.generate_content(self, prompt, timeout)]. The body
    never reads [timeout]: the request carries no [request_options]. *)
Definition generate_content (self : GeminiClient) (prompt : string)
    (timeout : Z) : M string :=
  try_except
    (response <-
       model_generate_content provider (model self) prompt generation_config None ;;
     match response with
     | None => raise (py.ValueError "Empty response from Gemini")
     | Some r =>
         match genai.text r with
         | None => raise (py.ValueError "Empty response from Gemini")
         | Some t =>
             if py.truthy t then ret (py.strip t)
             else raise (py.ValueError "Empty response from Gemini")
         end
     end)
    (fun e => raise (py.Exception ("Gemini API error: " ++ py.str e))).

End WithProvider.

End gemini_client.

(** ** [docgen_agent.py] *)

Module docgen_agent.
Import py.

(** [DocGenAgent._build_prompt(self, analysis)]. *)
Definition _build_prompt (analysis : analysis_dict) : string :=
  let structure_preview := join nl (slice_to 40 (get (structure analysis) [])) in
  let languages := join ", " (get (languages analysis) []) in
  let frameworks := join ", " (get (frameworks analysis) []) in
  template.persona ++ get (name analysis) "Unknown" ++ "
- Primary Languages: " ++ or languages "Not detected" ++ "
- Frameworks/Tools: " ++ or frameworks "Not detected" ++ "
- Total Files: " ++ str_of_int (get (fileCount analysis) 0%Z) ++ "
- Estimated Lines of Code: " ++ str_of_int (get (estimatedLOC analysis) 0%Z) ++ "

PROJECT STRUCTURE:
" ++ structure_preview ++ template.requirements.

(** The message of the error raised when no credential is at hand. *)
Definition missing_key_message : string :=
  "GEMINI_API_KEY not provided." ++ nl ++
  "Please configure it in the VS Code extension.".

Section WithProvider.

Variable provider : genai.Provider.

Local Open Scope py_scope.

(** [DocGenAgent.generate(self, analysis, api_key)]. *)
Definition generate (analysis : analysis_dict) (api_key : option string)
    : M string :=
  key_to_use <-
    (if truthy_opt api_key then ret api_key else getenv_GEMINI_API_KEY) ;;
  match key_to_use with
  | Some (String c k) =>
      gemini <- gemini_client.__init__ provider (String c k) ;;
      let prompt := _build_prompt analysis in
      readme <-
        gemini_client.generate_content provider gemini prompt
          gemini_client.timeout_default ;;
      ret readme
  | Some EmptyString | None => raise (ValueError missing_key_message)
  end.

End WithProvider.

End docgen_agent.

(** ** Observations on a run *)

(** The credential a call was made with. *)
Definition credential_of (c : NetworkCall) : option string :=
  match c with
  | ListModels credential => credential
  | GenerateContent credential _ _ _ _ => credential
  end.

(** The prompts of the generation requests among [cs], in order. *)
Fixpoint prompts_sent (cs : list NetworkCall) : list string :=
  match cs with
  | [] => []
  | ListModels _ :: cs' => prompts_sent cs'
  | GenerateContent _ _ prompt _ _ :: cs' => prompt :: prompts_sent cs'
  end.

(** The deadlines of the generation requests among [cs], in order. *)
Fixpoint deadlines_sent (cs : list NetworkCall) : list (option Z) :=
  match cs with
  | [] => []
  | ListModels _ :: cs' => deadlines_sent cs'
  | GenerateContent _ _ _ _ deadline :: cs' => deadline :: deadlines_sent cs'
  end.

(** What the service answers to the one request [generate_content] makes. *)
Definition reply_to (provider : genai.Provider) (self : gemini_client.GeminiClient)
    (prompt : string) (p : Process) : py.exn + option genai.Response :=
  genai.generate_content provider (configured_api_key p)
    (genai.model_name (gemini_client.model self)) prompt
    gemini_client.generation_config None.

(** [m] advertises the capability [__init__] looks for. *)
Definition capable (m : genai.Model) : Prop :=
  In "generateContent" (genai.supported_generation_methods m).

(** The rest of [generate] once the credential [key] is chosen. *)
Definition generate_with (provider : genai.Provider) (analysis : analysis_dict)
    (key : string) : M string :=
  (gemini <- gemini_client.__init__ provider key ;;
   readme <-
     gemini_client.generate_content provider gemini
       (docgen_agent._build_prompt analysis) gemini_client.timeout_default ;;
   ret readme)%py.

(** [text.split(sep)] for a one-byte separator: the pieces between the
    occurrences of [sep]. It reads the structure listing back as lines. *)
Fixpoint split_on (sep : ascii) (s : string) : list string :=
  match s with
  | EmptyString => [EmptyString]
  | String c s' =>
      if Ascii.eqb c sep then EmptyString :: split_on sep s'
      else
        match split_on sep s' with
        | [] => [String c EmptyString]
        | piece :: pieces => String c piece :: pieces
        end
  end.

Definition lines (s : string) : list string := split_on "010"%char s.

(** [s] holds no line feed. *)
Fixpoint one_line (s : string) : bool :=
  match s with
  | EmptyString => true
  | String c s' => negb (Ascii.eqb c "010"%char) && one_line s'
  end.

(** The analysis with another value under its [structure] key. *)
Definition with_structure (analysis : analysis_dict) (entries : option (list string))
    : analysis_dict :=
  {| name := name analysis;
     structure := entries;
     languages := languages analysis;
     frameworks := frameworks analysis;
     fileCount := fileCount analysis;
     estimatedLOC := estimatedLOC analysis;
     apiKey := apiKey analysis;
     description := description analysis;
     dependencies := dependencies analysis;
     scripts := scripts analysis |}.

(** ** Sample inputs *)

Module sample.

Definition demo : analysis_dict :=
  {| name := Some "demo";
     structure := Some ["a.py"; "b.py"];
     languages := Some ["Python"];
     frameworks := Some [];
     fileCount := Some 2%Z;
     estimatedLOC := Some 50%Z;
     apiKey := None;
     description := None;
     dependencies := None;
     scripts := None |}.

(** One hundred paths, and an analysis that holds them as its structure and
    has no language, no framework and a credential among its optional keys. *)
Definition paths : list string :=
  map (fun i => "src/module_" ++ py.str_of_int (Z.of_nat i) ++ ".py") (seq 1 100).

Definition large : analysis_dict :=
  {| name := Some "large";
     structure := Some paths;
     languages := None;
     frameworks := Some [];
     fileCount := Some 100%Z;
     estimatedLOC := Some 3000%Z;
     apiKey := Some "secret-key";
     description := Some "A large project";
     dependencies := Some [("fastapi", py.JStr "0.110")];
     scripts := Some [("start", py.JStr "uvicorn app:app")] |}.

(** The same analysis with its optional keys absent. *)
Definition large_bare : analysis_dict :=
  {| name := Some "large";
     structure := Some paths;
     languages := None;
     frameworks := Some [];
     fileCount := Some 100%Z;
     estimatedLOC := Some 3000%Z;
     apiKey := None;
     description := None;
     dependencies := None;
     scripts := None |}.

(** A fresh process with no fallback credential. *)
Definition fresh : Process :=
  {| environ_GEMINI_API_KEY := None; configured_api_key := None |}.

(** A process whose environment holds a fallback credential. *)
Definition with_env : Process :=
  {| environ_GEMINI_API_KEY := Some "env-key"; configured_api_key := None |}.

Definition embedding : genai.Model :=
  {| genai.name := "models/embedding-001";
     genai.supported_generation_methods := ["embedContent"] |}.

Definition flash : genai.Model :=
  {| genai.name := "models/gemini-1.5-flash";
     genai.supported_generation_methods := ["generateContent"; "countTokens"] |}.

Definition pro : genai.Model :=
  {| genai.name := "models/gemini-1.5-pro";
     genai.supported_generation_methods := ["generateContent"] |}.

(** A provider that lists [models] and answers every generation request
    with [reply]. *)
Definition answering (models : list genai.Model)
    (reply : py.exn + option genai.Response) : genai.Provider :=
  {| genai.list_models := fun _ => inr models;
     genai.generate_content := fun _ _ _ _ _ => reply |}.

(** The text comes back as one space. *)
Definition blank : genai.Provider :=
  answering [embedding; flash; pro] (inr (Some {| genai.text := Some " " |})).

(** The text comes back empty. *)
Definition empty : genai.Provider :=
  answering [embedding; flash; pro] (inr (Some {| genai.text := Some EmptyString |})).

(** The request fails in transport, with a message of the provider's. *)
Definition unavailable : genai.Provider :=
  answering [embedding; flash; pro]
    (inl (py.Raise "ServiceUnavailable" "Empty response from Gemini")).

(** The answer takes 120 seconds: a request with a shorter deadline fails
    with the provider's deadline error, any other gets the text. *)
Definition slow : genai.Provider :=
  {| genai.list_models := fun _ => inr [flash];
     genai.generate_content := fun _ _ _ _ deadline =>
       match deadline with
       | Some seconds =>
           if (seconds <? 120)%Z
           then inl (py.Raise "DeadlineExceeded" "504 Deadline Exceeded")
           else inr (Some {| genai.text := Some "# demo" |})
       | None => inr (Some {| genai.text := Some "# demo" |})
       end |}.

(** A process in which a client was built with the credential ["key"]. *)
Definition session : Process :=
  {| environ_GEMINI_API_KEY := None; configured_api_key := Some "key" |}.

Definition client : gemini_client.GeminiClient :=
  {| gemini_client.model := {| genai.model_name := genai.name flash |} |}.

End sample.

(** ** [app.py] *)

Module app.

(** The validated body of a request. *)
Record ProjectAnalysis : Type := {
  name : string;
  structure : list string;
  languages : list string;
  frameworks : list string;
  fileCount : Z;
  estimatedLOC : Z;
  apiKey : option string;
  description : option string;
  dependencies : option (list (string * py.json));
  scripts : option (list (string * py.json))
}.

Record ReadmeResponse : Type := { readme : string }.

(** [HTTPException(status_code=..., detail=...)]. *)
Record HTTPException : Type := { status_code : Z; detail : string }.

(** [analysis.model_dump()]: every key of the model is in the dict. An
    optional key whose value is [None] is held as an absent key; the agent
    reads none of them from the dict. *)
Definition model_dump (analysis : ProjectAnalysis) : analysis_dict :=
  Build_analysis_dict
    (Some (name analysis)) (Some (structure analysis))
    (Some (languages analysis)) (Some (frameworks analysis))
    (Some (fileCount analysis)) (Some (estimatedLOC analysis))
    (apiKey analysis) (description analysis)
    (dependencies analysis) (scripts analysis).

(** What serving one request did: the calls made, the process afterwards,
    and the response returned or the [HTTPException] raised. *)
Record Served : Type := {
  sent : list NetworkCall;
  process_after : Process;
  reply : HTTPException + ReadmeResponse
}.

(** [generate_readme(analysis)], the handler of [POST /generate-readme]. *)
Definition generate_readme (provider : genai.Provider)
    (analysis : ProjectAnalysis) (p : Process) : Served :=
  let analysis_dict := model_dump analysis in
  let r := docgen_agent.generate provider analysis_dict (apiKey analysis) p in
  {| sent := calls r;
     process_after := after r;
     reply :=
       match outcome r with
       | inr readme_content => inr {| readme := readme_content |}
       | inl e => inl {| status_code := 500; detail := py.str e |}
       end |}.

End app.

(** ** Predicates on strings *)

(** [s] is strings of [ps] written one after the other. *)
Inductive made_of (ps : list string) : string -> Prop :=
| made_of_nil : made_of ps EmptyString
| made_of_cons (q s : string) :
    In q ps -> made_of ps s -> made_of ps (q ++ s).

(** [s] starts, respectively ends, with a white space code point. *)
Definition starts_blank (s : string) : Prop :=
  exists q rest, In q py.whitespace /\ s = q ++ rest.

Definition ends_blank (s : string) : Prop :=
  exists q rest, In q py.whitespace /\ s = rest ++ q.

(** The process [p] once [genai.configure] has stored [key]. *)
Definition configured_with (key : string) (p : Process) : Process :=
  {| environ_GEMINI_API_KEY := environ_GEMINI_API_KEY p;
     configured_api_key := Some key |}.

(** What the summary block shows for a list of languages or frameworks. *)
Definition shown_field (items : option (list string)) : string :=
  py.or (py.join ", " (py.get items [])) "Not detected".

(** ** More sample inputs *)

Module scenario.

(** The text comes back with white space around it. *)
Definition padded : genai.Provider :=
  sample.answering [sample.embedding; sample.flash; sample.pro]
    (inr (Some {| genai.text := Some ("  # demo" ++ py.nl ++ "Text. " ++ py.nl) |})).

(** The listing of the models fails. *)
Definition denied : genai.Provider :=
  {| genai.list_models := fun _ => inl (py.Raise "PermissionDenied" "403 API key not valid");
     genai.generate_content := fun _ _ _ _ _ =>
       inr (Some {| genai.text := Some "# demo" |}) |}.

(** No listed model can generate content. *)
Definition embeddings_only : genai.Provider :=
  sample.answering [sample.embedding] (inr (Some {| genai.text := Some "# demo" |})).

(** A request body: the demo project with a credential of its own. *)
Definition request : app.ProjectAnalysis :=
  {| app.name := "demo";
     app.structure := ["a.py"; "b.py"];
     app.languages := ["Python"];
     app.frameworks := [];
     app.fileCount := 2;
     app.estimatedLOC := 50;
     app.apiKey := Some "request-key";
     app.description := None;
     app.dependencies := None;
     app.scripts := None |}.

(** The same body without a credential. *)
Definition request_without_key : app.ProjectAnalysis :=
  {| app.name := "demo";
     app.structure := ["a.py"; "b.py"];
     app.languages := ["Python"];
     app.frameworks := [];
     app.fileCount := 2;
     app.estimatedLOC := 50;
     app.apiKey := None;
     app.description := None;
     app.dependencies := None;
     app.scripts := None |}.

End scenario.

(** * Properties *)

(** ** The generation client *)

Section GenerationClient.

Variable provider : genai.Provider.

(** [__init__] stores the credential, lists the models once and makes no
    other call; it binds the first listed model that is capable, and raises
    when the listing raises or holds no capable model. *)
Lemma init_run api_key p :
  gemini_client.__init__ provider api_key p =
    let p' := {| environ_GEMINI_API_KEY := environ_GEMINI_API_KEY p;
                 configured_api_key := Some api_key |} in
    {| calls := [ListModels (Some api_key)];
       after := p';
       outcome :=
         match genai.list_models provider (Some api_key) with
         | inl e => inl e
         | inr available_models =>
             match
               filter
                 (fun m => py.contains "generateContent"
                             (genai.supported_generation_methods m))
                 available_models
             with
             | [] =>
                 inl (py.ValueError
                        "No models available that support generateContent")
             | selected_model :: _ =>
                 inr {| gemini_client.model :=
                          {| genai.model_name := genai.name selected_model |} |}
             end
         end |}.
Proof.
  unfold gemini_client.__init__, try_except, bind, list_models, configure, raise, ret.
  cbn [outcome calls after configured_api_key environ_GEMINI_API_KEY].
  destruct (genai.list_models provider (Some api_key)) as [e | available_models].
  - reflexivity.
  - cbn [outcome calls after].
    destruct (filter _ available_models) as [ | selected_model rest]; reflexivity.
Qed.

(** [generate_content] makes one request, with the fixed sampling
    parameters and no deadline, and leaves the process as it was. *)
Lemma generate_content_calls self prompt timeout p :
  calls (gemini_client.generate_content provider self prompt timeout p) =
    [GenerateContent (configured_api_key p)
       (genai.model_name (gemini_client.model self)) prompt
       gemini_client.generation_config None]
  /\ after (gemini_client.generate_content provider self prompt timeout p) = p.
Proof.
  unfold gemini_client.generate_content, try_except, bind, model_generate_content.
  cbn [outcome calls after].
  destruct (genai.generate_content _ _ _ _ _ _) as [e | [[[t | ]] | ]]; cbn.
  - split; reflexivity.
  - destruct (py.truthy t); cbn; split; reflexivity.
  - split; reflexivity.
  - split; reflexivity.
Qed.

(** The outcome of [generate_content], case by case on the answer. *)
Lemma generate_content_outcome self prompt timeout p :
  outcome (gemini_client.generate_content provider self prompt timeout p) =
    match reply_to provider self prompt p with
    | inl e => inl (py.Exception ("Gemini API error: " ++ py.str e))
    | inr (Some {| genai.text := Some (String c t) |}) =>
        inr (py.strip (String c t))
    | inr _ =>
        inl (py.Exception "Gemini API error: Empty response from Gemini")
    end.
Proof.
  unfold reply_to, gemini_client.generate_content, try_except, bind,
    model_generate_content.
  cbn [outcome calls after].
  destruct (genai.generate_content _ _ _ _ _ _) as [e | [[[[ | c t] | ]] | ]];
    reflexivity.
Qed.

End GenerationClient.

(** C1 (the code departs from it). A response whose text is one space passes
    the emptiness test of [generate_content], which runs before the text is
    stripped: the call succeeds and returns the empty string, at the client
    and through the agent's [generate], instead of failing. *)
Theorem C1_blank_text_returned_as_empty_success :
  outcome (gemini_client.generate_content sample.blank sample.client "prompt"
             gemini_client.timeout_default sample.session) = inr EmptyString
  /\ outcome (docgen_agent.generate sample.blank sample.demo (Some "key")
                sample.fresh) = inr EmptyString.
Proof. split; vm_compute; reflexivity. Qed.

(** C2 (as stated, refuted). A transport failure whose message reads
    "Empty response from Gemini" and a response with empty text leave the
    caller with the same exception, class and message. *)
Lemma C2_empty_text_same_as_transport_failure :
  reply_to sample.unavailable sample.client "prompt" sample.session
    = inl (py.Raise "ServiceUnavailable" "Empty response from Gemini")
  /\ reply_to sample.empty sample.client "prompt" sample.session
    = inr (Some {| genai.text := Some EmptyString |})
  /\ outcome (gemini_client.generate_content sample.unavailable sample.client
                "prompt" gemini_client.timeout_default sample.session)
     = outcome (gemini_client.generate_content sample.empty sample.client
                  "prompt" gemini_client.timeout_default sample.session).
Proof. repeat split. Qed.

(** C2 (amended). When the request returns no response, a response without
    text or with empty text, [generate_content] raises [Exception] with the
    message "Gemini API error: Empty response from Gemini"; when the request
    itself raises [e], it raises [Exception] with the message
    "Gemini API error: " followed by [str(e)]. Both failures have the one
    class [Exception], and they are the same exception exactly when [str(e)]
    is "Empty response from Gemini". *)
Theorem C2_empty_text_and_transport_failure_raise_Exception :
  forall provider self prompt timeout p,
    let result :=
      outcome (gemini_client.generate_content provider self prompt timeout p) in
    match reply_to provider self prompt p with
    | inr None
    | inr (Some {| genai.text := None |})
    | inr (Some {| genai.text := Some EmptyString |}) =>
        result = inl (py.Exception "Gemini API error: Empty response from Gemini")
    | inl e =>
        result = inl (py.Exception ("Gemini API error: " ++ py.str e))
        /\ (result = inl (py.Exception "Gemini API error: Empty response from Gemini")
            <-> py.str e = "Empty response from Gemini")
    | inr (Some {| genai.text := Some (String c t) |}) =>
        result = inr (py.strip (String c t))
    end.
Proof.
  intros provider self prompt timeout p result. subst result.
  rewrite generate_content_outcome.
  destruct (reply_to provider self prompt p) as [e | [[[[ | c t] | ]] | ]];
    try reflexivity.
  split; [reflexivity | ].
  split.
  - intros H. injection H as H. exact H.
  - intros H. rewrite H. reflexivity.
Qed.

(** C9 (the code departs from it). [timeout] defaults to 60, yet the run of
    [generate_content] is the same for every [timeout]: the request is sent
    without a deadline. Against a provider that needs 120 seconds, and fails
    every request whose deadline is shorter, a call with [timeout = 1] and the
    agent's call with the default both return the text instead of failing. *)
Theorem C9_timeout_is_never_passed_on :
  gemini_client.timeout_default = 60%Z
  /\ (forall provider self prompt timeout timeout' p,
        gemini_client.generate_content provider self prompt timeout p
        = gemini_client.generate_content provider self prompt timeout' p)
  /\ (forall provider self prompt timeout p,
        deadlines_sent
          (calls (gemini_client.generate_content provider self prompt timeout p))
        = [None])
  /\ (forall seconds,
        (seconds < 120)%Z ->
        genai.generate_content sample.slow (Some "key") "models/gemini-1.5-flash"
          "prompt" gemini_client.generation_config (Some seconds)
        = inl (py.Raise "DeadlineExceeded" "504 Deadline Exceeded"))
  /\ outcome (gemini_client.generate_content sample.slow sample.client "prompt"
                1%Z sample.session) = inr "# demo"
  /\ outcome (docgen_agent.generate sample.slow sample.demo (Some "key")
                sample.fresh) = inr "# demo".
Proof.
  split; [reflexivity | ].
  split; [intros; reflexivity | ].
  split; [ | split; [ | split]].
  - intros provider self prompt timeout p.
    destruct (generate_content_calls provider self prompt timeout p) as [H _].
    rewrite H. reflexivity.
  - intros seconds Hshort. cbn [sample.slow genai.generate_content].
    apply Z.ltb_lt in Hshort. rewrite Hshort. reflexivity.
  - vm_compute. reflexivity.
  - vm_compute. reflexivity.
Qed.

(** ** Model selection *)

Lemma contains_In (x : string) (l : list string) :
  py.contains x l = true <-> In x l.
Proof.
  unfold py.contains. rewrite existsb_exists. split.
  - intros [y [Hin Heq]]. apply String.eqb_eq in Heq. subst y. exact Hin.
  - intros Hin. exists x. split; [exact Hin | apply String.eqb_refl].
Qed.

Lemma filter_nil_none {A : Type} (f : A -> bool) (l : list A) :
  (forall x, In x l -> f x = false) -> filter f l = [].
Proof.
  induction l as [ | a l IH]; intros H; [reflexivity | ].
  cbn [filter]. rewrite (H a (or_introl eq_refl)).
  apply IH. intros x Hx. apply H. right. exact Hx.
Qed.

Lemma filter_first {A : Type} (f : A -> bool) (before : list A) (m : A)
    (rest : list A) :
  (forall b, In b before -> f b = false) -> f m = true ->
  filter f (before ++ m :: rest)%list = m :: filter f rest.
Proof.
  intros Hbefore Hm. rewrite filter_app, (filter_nil_none f before Hbefore).
  cbn [app filter]. rewrite Hm. reflexivity.
Qed.

Lemma not_capable_false (m : genai.Model) :
  ~ capable m ->
  py.contains "generateContent" (genai.supported_generation_methods m) = false.
Proof.
  intros H. apply not_true_is_false. intros Hc. apply H.
  apply contains_In. exact Hc.
Qed.

(** C5. Given the list of models the provider returns, [__init__] keeps
    exactly the models that advertise "generateContent"; when none does it
    raises the no-capable-model [ValueError]; otherwise the client is bound to
    the first capable model in the order of the provider's list. It lists the
    models once and makes no other call. *)
Theorem C5_first_capable_model_is_selected :
  forall provider api_key p available_models,
    genai.list_models provider (Some api_key) = inr available_models ->
    let r := gemini_client.__init__ provider api_key p in
    calls r = [ListModels (Some api_key)]
    /\ (exists content_models,
          (forall m, In m content_models <-> In m available_models /\ capable m)
          /\ match content_models with
             | [] =>
                 outcome r =
                   inl (py.ValueError
                          "No models available that support generateContent")
             | selected_model :: _ =>
                 outcome r =
                   inr {| gemini_client.model :=
                            {| genai.model_name := genai.name selected_model |} |}
             end)
    /\ ((forall m, In m available_models -> ~ capable m) ->
        outcome r =
          inl (py.ValueError "No models available that support generateContent"))
    /\ (forall before m rest,
          available_models = (before ++ m :: rest)%list ->
          (forall b, In b before -> ~ capable b) ->
          capable m ->
          outcome r =
            inr {| gemini_client.model :=
                     {| genai.model_name := genai.name m |} |}).
Proof.
  intros provider api_key p available_models Hlist r. subst r.
  rewrite init_run. cbn [calls outcome]. rewrite Hlist.
  split; [reflexivity | ].
  split; [ | split].
  - exists (filter
              (fun m => py.contains "generateContent"
                          (genai.supported_generation_methods m))
              available_models).
    split.
    + intros m. rewrite filter_In. unfold capable.
      rewrite <- contains_In. reflexivity.
    + destruct (filter _ available_models); reflexivity.
  - intros Hnone. rewrite filter_nil_none; [reflexivity | ].
    intros m Hm. apply not_capable_false. apply Hnone. exact Hm.
  - intros before m rest Hsplit Hbefore Hm. subst available_models.
    rewrite filter_first; [reflexivity | | ].
    + intros b Hb. apply not_capable_false. apply Hbefore. exact Hb.
    + apply contains_In. exact Hm.
Qed.

Lemma C5_first_capable_model_is_selected_witness :
  let r := gemini_client.__init__ sample.blank "key" sample.fresh in
  genai.list_models sample.blank (Some "key")
    = inr [sample.embedding; sample.flash; sample.pro]
  /\ calls r = [ListModels (Some "key")]
  /\ outcome r = inr sample.client.
Proof.
  pose proof (C5_first_capable_model_is_selected sample.blank "key" sample.fresh
                [sample.embedding; sample.flash; sample.pro] eq_refl) as H.
  cbv zeta in H. destruct H as [Hcalls [_ [_ Hfirst]]].
  split; [reflexivity | ]. split; [exact Hcalls | ].
  apply (Hfirst [sample.embedding] sample.flash [sample.pro] eq_refl).
  - intros b [Hb | []]. subst b. unfold capable. cbn.
    intros [H | []]. discriminate H.
  - unfold capable. cbn. left. reflexivity.
Defined.

(** ** The agent: choice of the credential *)

Lemma run_eta {A : Type} (r : Run A) :
  {| calls := calls r; after := after r; outcome := outcome r |} = r.
Proof. destruct r. reflexivity. Qed.

Lemma bind_ret_l {A B : Type} (a : A) (k : A -> M B) (p : Process) :
  bind (ret a) k p = k a p.
Proof. unfold bind, ret. cbn. apply run_eta. Qed.

Lemma bind_getenv {B : Type} (k : option string -> M B) (p : Process) :
  bind getenv_GEMINI_API_KEY k p = k (environ_GEMINI_API_KEY p) p.
Proof. unfold bind, getenv_GEMINI_API_KEY. cbn. apply run_eta. Qed.

Section Agent.

Variable provider : genai.Provider.
Variable analysis : analysis_dict.

(** [generate] is decided by the value of [api_key or os.getenv(...)]. *)
Lemma generate_by_key api_key p :
  docgen_agent.generate provider analysis api_key p =
    match py.or_opt api_key (environ_GEMINI_API_KEY p) with
    | Some (String c k) => generate_with provider analysis (String c k) p
    | _ => raise (py.ValueError docgen_agent.missing_key_message) p
    end.
Proof.
  unfold docgen_agent.generate, py.or_opt.
  destruct (py.truthy_opt api_key).
  - rewrite bind_ret_l. destruct api_key as [[ | c k] | ]; reflexivity.
  - rewrite bind_getenv.
    destruct (environ_GEMINI_API_KEY p) as [[ | c k] | ]; reflexivity.
Qed.

(** A run with the credential [key]: the process ends configured with
    [key], the first call lists the models, every call carries [key], and
    each prompt sent is the one built from the analysis. *)
Lemma generate_with_run key p :
  let r := generate_with provider analysis key p in
  configured_api_key (after r) = Some key
  /\ hd_error (calls r) = Some (ListModels (Some key))
  /\ Forall (fun c => credential_of c = Some key) (calls r)
  /\ Forall (fun q => q = docgen_agent._build_prompt analysis)
       (prompts_sent (calls r)).
Proof.
  unfold generate_with, bind. rewrite init_run. cbn [calls after outcome].
  destruct (genai.list_models provider (Some key)) as [e | available_models].
  - cbn. repeat split; repeat constructor.
  - destruct (filter _ available_models) as [ | selected_model rest].
    + cbn. repeat split; repeat constructor.
    + cbn [calls after outcome].
      match goal with
      | |- context [gemini_client.generate_content ?pr ?g ?q ?t ?s] =>
          destruct (generate_content_calls pr g q t s) as [Hcalls Hafter];
          destruct (gemini_client.generate_content pr g q t s)
            as [cs s' [e | readme]]
      end; cbn [calls after outcome ret] in *; subst cs s';
        cbn; repeat split; repeat constructor.
Qed.

End Agent.

(** C3. With no supplied key (absent or empty) and no key in the environment
    (absent or empty), [generate] raises the missing-credential [ValueError]
    at once: no call leaves the process and no credential is configured, so no
    client is built, no model is listed and nothing is generated. *)
Theorem C3_missing_credential_fails_before_any_call :
  forall provider analysis api_key p,
    py.truthy_opt api_key = false ->
    py.truthy_opt (environ_GEMINI_API_KEY p) = false ->
    docgen_agent.generate provider analysis api_key p =
      {| calls := [];
         after := p;
         outcome := inl (py.ValueError docgen_agent.missing_key_message) |}.
Proof.
  intros provider analysis api_key p Hkey Henv.
  rewrite generate_by_key. unfold py.or_opt. rewrite Hkey.
  destruct (environ_GEMINI_API_KEY p) as [[ | c k] | ];
    [reflexivity | discriminate Henv | reflexivity].
Qed.

Lemma C3_missing_credential_fails_before_any_call_witness :
  docgen_agent.generate sample.blank sample.demo (Some EmptyString) sample.fresh =
    {| calls := [];
       after := sample.fresh;
       outcome := inl (py.ValueError docgen_agent.missing_key_message) |}.
Proof.
  apply (C3_missing_credential_fails_before_any_call sample.blank sample.demo
           (Some EmptyString) sample.fresh); reflexivity.
Defined.

(** C4. When the supplied key is present and not empty, the client is built
    with the supplied key, whatever the environment holds; when the supplied
    key is absent or empty, the client is built with the key of the
    environment. In both cases [generate] goes on as [generate_with] that
    key: the session is configured with it and every call carries it. *)
Theorem C4_supplied_key_takes_precedence :
  forall provider analysis api_key p key,
    key <> EmptyString ->
    (api_key = Some key
     \/ (py.truthy_opt api_key = false /\ environ_GEMINI_API_KEY p = Some key)) ->
    let r := docgen_agent.generate provider analysis api_key p in
    r = generate_with provider analysis key p
    /\ configured_api_key (after r) = Some key
    /\ hd_error (calls r) = Some (ListModels (Some key))
    /\ Forall (fun c => credential_of c = Some key) (calls r).
Proof.
  intros provider analysis api_key p key Hkey Hsource r.
  assert (Hrun : r = generate_with provider analysis key p).
  { subst r. rewrite generate_by_key. unfold py.or_opt.
    destruct Hsource as [Hsupplied | [Hnone Henv]].
    - subst api_key. destruct key as [ | c k]; [contradiction | reflexivity].
    - rewrite Hnone, Henv. destruct key as [ | c k]; [contradiction | reflexivity]. }
  split; [exact Hrun | ]. rewrite Hrun.
  destruct (generate_with_run provider analysis key p) as [H1 [H2 [H3 _]]].
  repeat split; assumption.
Qed.

Lemma C4_supplied_key_takes_precedence_witness :
  let r := docgen_agent.generate sample.blank sample.demo (Some "key") sample.with_env in
  environ_GEMINI_API_KEY sample.with_env = Some "env-key"
  /\ r = generate_with sample.blank sample.demo "key" sample.with_env
  /\ configured_api_key (after r) = Some "key"
  /\ hd_error (calls r) = Some (ListModels (Some "key"))
  /\ Forall (fun c => credential_of c = Some "key") (calls r).
Proof.
  split; [reflexivity | ].
  apply (C4_supplied_key_takes_precedence sample.blank sample.demo (Some "key")
           sample.with_env "key").
  - discriminate.
  - left. reflexivity.
Defined.

(** A supplied key that is absent or empty stands for the key of the
    environment, whatever that holds. *)
Lemma generate_falls_back_to_environment provider analysis api_key p :
  py.truthy_opt api_key = false ->
  docgen_agent.generate provider analysis api_key p =
    docgen_agent.generate provider analysis (environ_GEMINI_API_KEY p) p.
Proof.
  intros Hkey. rewrite !generate_by_key. unfold py.or_opt. rewrite Hkey.
  destruct (py.truthy_opt (environ_GEMINI_API_KEY p)); reflexivity.
Qed.

(** Whatever the provider, the credential and the process, every prompt
    [generate] sends is the prompt built from the analysis. *)
Lemma generate_sends_built_prompt provider analysis api_key p :
  Forall (fun q => q = docgen_agent._build_prompt analysis)
    (prompts_sent (calls (docgen_agent.generate provider analysis api_key p))).
Proof.
  rewrite generate_by_key.
  destruct (py.or_opt api_key (environ_GEMINI_API_KEY p)) as [[ | c k] | ];
    try (cbn; constructor).
  apply generate_with_run.
Qed.

(** ** Strings *)

Lemma append_assoc (a b c : string) : (a ++ b) ++ c = a ++ b ++ c.
Proof.
  induction a as [ | x a IH]; [reflexivity | ].
  cbn [append]. rewrite IH. reflexivity.
Qed.

Lemma drop_prefix_shorter (q s rest : string) :
  q <> EmptyString -> py.drop_prefix q s = Some rest ->
  String.length rest < String.length s.
Proof.
  intros Hq. destruct q as [ | a q]; [contradiction | clear Hq].
  revert a s. induction q as [ | b q IH]; intros a s H.
  - destruct s as [ | x s]; [discriminate H | ]. cbn in H.
    destruct (Ascii.eqb a x); [ | discriminate H].
    injection H as H. subst rest. cbn. lia.
  - destruct s as [ | x s]; [discriminate H | ].
    cbn [py.drop_prefix] in H.
    destruct (Ascii.eqb a x); [ | discriminate H].
    apply IH in H. cbn [String.length]. lia.
Qed.

Lemma drop_any_shorter (ps : list string) (s rest : string) :
  Forall (fun q => q <> EmptyString) ps -> py.drop_any ps s = Some rest ->
  String.length rest < String.length s.
Proof.
  induction 1 as [ | q ps Hq _ IH]; cbn [py.drop_any]; [discriminate | ].
  destruct (py.drop_prefix q s) as [r | ] eqn:Hdrop; [ | exact IH].
  intros H. injection H as H. subst r.
  exact (drop_prefix_shorter q s rest Hq Hdrop).
Qed.

(** The fuel [lstrip_with] gives is enough: nothing of [ps] is left in
    front of its result. *)
Lemma lstrip_with_done (ps : list string) (s : string) :
  Forall (fun q => q <> EmptyString) ps ->
  py.drop_any ps (py.lstrip_with ps s) = None.
Proof.
  intros Hps. unfold py.lstrip_with.
  assert (H : forall fuel t, String.length t <= fuel ->
                py.drop_any ps (py.lstrip_fuel ps fuel t) = None).
  { induction fuel as [ | fuel IH]; intros t Hlen.
    - destruct t; [ | cbn in Hlen; lia]. cbn [py.lstrip_fuel].
      destruct (py.drop_any ps EmptyString) as [r | ] eqn:Hdrop; [ | reflexivity].
      apply (drop_any_shorter ps _ _ Hps) in Hdrop. cbn in Hdrop. lia.
    - cbn [py.lstrip_fuel].
      destruct (py.drop_any ps t) as [r | ] eqn:Hdrop; [ | exact Hdrop].
      apply IH. apply (drop_any_shorter ps _ _ Hps) in Hdrop. lia. }
  apply H. lia.
Qed.

Lemma whitespace_not_empty :
  Forall (fun q => q <> EmptyString) py.whitespace
  /\ Forall (fun q => q <> EmptyString) (map py.reverse py.whitespace).
Proof. split; vm_compute; repeat constructor; discriminate. Qed.

(** No white space is left in front of [lstrip s]. *)
Lemma lstrip_done (s : string) : py.drop_any py.whitespace (py.lstrip s) = None.
Proof. apply lstrip_with_done. apply whitespace_not_empty. Qed.

(** *** Lines *)

Lemma lines_one_line (s : string) :
  one_line s = true -> lines s = [s].
Proof.
  unfold lines. induction s as [ | c s IH]; [reflexivity | ].
  cbn [one_line split_on]. intros H. apply andb_true_iff in H as [Hc Hs].
  apply negb_true_iff in Hc. rewrite Hc, (IH Hs). reflexivity.
Qed.

Lemma lines_append (s rest : string) :
  one_line s = true -> lines (s ++ py.nl ++ rest) = s :: lines rest.
Proof.
  unfold lines. induction s as [ | c s IH]; [reflexivity | ].
  cbn [one_line split_on append]. intros H. apply andb_true_iff in H as [Hc Hs].
  apply negb_true_iff in Hc. rewrite Hc, (IH Hs). reflexivity.
Qed.

(** Entries that hold no line feed, written one per line, read back as
    themselves. *)
Lemma lines_join (entries : list string) :
  entries <> [] -> forallb one_line entries = true ->
  lines (py.join py.nl entries) = entries.
Proof.
  unfold py.join. induction entries as [ | x entries IH]; [contradiction | ].
  intros _ H. cbn [forallb] in H. apply andb_true_iff in H as [Hx Hrest].
  destruct entries as [ | y entries].
  - cbn [String.concat]. apply lines_one_line. exact Hx.
  - change (String.concat py.nl (x :: y :: entries))
      with (x ++ py.nl ++ String.concat py.nl (y :: entries)).
    rewrite (lines_append _ _ Hx), IH; [reflexivity | discriminate | exact Hrest].
Qed.

(** ** The prompt builder *)

(** Brings both sides of an equation between prompts to one right-nested
    form; the template texts stay folded. *)
Ltac prompt_eq :=
  unfold py.nl; repeat rewrite append_assoc; cbn [append]; reflexivity.

(** The prompt reads the structure only through its first 40 entries. *)
Lemma build_prompt_structure (analysis : analysis_dict) :
  exists head,
    forall listing,
      docgen_agent._build_prompt (with_structure analysis listing) =
        head ++ "PROJECT STRUCTURE:" ++ py.nl
          ++ py.join py.nl (firstn 40 (py.get listing []))
          ++ template.requirements.
Proof.
  exists (template.persona ++ py.get (name analysis) "Unknown" ++ py.nl
            ++ "- Primary Languages: "
            ++ py.or (py.join ", " (py.get (languages analysis) [])) "Not detected"
            ++ py.nl ++ "- Frameworks/Tools: "
            ++ py.or (py.join ", " (py.get (frameworks analysis) [])) "Not detected"
            ++ py.nl ++ "- Total Files: "
            ++ py.str_of_int (py.get (fileCount analysis) 0%Z)
            ++ py.nl ++ "- Estimated Lines of Code: "
            ++ py.str_of_int (py.get (estimatedLOC analysis) 0%Z)
            ++ py.nl ++ py.nl).
  intros listing. unfold docgen_agent._build_prompt, with_structure, py.slice_to.
  cbn [name structure languages frameworks fileCount estimatedLOC].
  prompt_eq.
Qed.

Lemma with_structure_same (analysis : analysis_dict) :
  with_structure analysis (structure analysis) = analysis.
Proof. destruct analysis. reflexivity. Qed.

(** C6. When [structure] has more than 40 entries, the structure listing of
    the prompt is the first 40 entries in their order, joined by line feeds,
    between the "PROJECT STRUCTURE:" line and the requirements; whatever
    follows the 40th entry leaves the prompt unchanged; and when no entry
    holds a line feed, the lines of the listing are those 40 entries. *)
Theorem C6_structure_listing_is_first_40_entries :
  forall analysis entries,
    structure analysis = Some entries ->
    40 < List.length entries ->
    let shown := firstn 40 entries in
    List.length shown = 40
    /\ entries = (shown ++ skipn 40 entries)%list
    /\ (exists head,
          docgen_agent._build_prompt analysis =
            head ++ "PROJECT STRUCTURE:" ++ py.nl ++ py.join py.nl shown
              ++ template.requirements
          /\ forall others,
               docgen_agent._build_prompt
                 (with_structure analysis (Some (shown ++ others)%list)) =
                 head ++ "PROJECT STRUCTURE:" ++ py.nl ++ py.join py.nl shown
                   ++ template.requirements)
    /\ (forallb one_line shown = true -> lines (py.join py.nl shown) = shown).
Proof.
  intros analysis entries Hstructure Hlen shown.
  assert (Hshown : List.length shown = 40).
  { subst shown. apply firstn_length_le. lia. }
  split; [exact Hshown | ].
  split; [subst shown; symmetry; apply firstn_skipn | ].
  split.
  - destruct (build_prompt_structure analysis) as [head Hhead].
    exists head. split.
    + rewrite <- (with_structure_same analysis) at 1.
      rewrite Hhead, Hstructure. reflexivity.
    + intros others. rewrite Hhead. cbn [py.get].
      replace (firstn 40 (shown ++ others)) with shown; [reflexivity | ].
      rewrite firstn_app, Hshown, Nat.sub_diag, firstn_O, app_nil_r.
      symmetry. apply firstn_all2. lia.
  - intros Hlines. apply lines_join; [ | exact Hlines].
    intros Hnil. rewrite Hnil in Hshown. discriminate Hshown.
Qed.

Lemma C6_structure_listing_is_first_40_entries_witness :
  structure sample.large = Some sample.paths
  /\ 40 < List.length sample.paths
  /\ List.length (firstn 40 sample.paths) = 40
  /\ lines (py.join py.nl (firstn 40 sample.paths)) = firstn 40 sample.paths.
Proof.
  assert (Hlen : 40 < List.length sample.paths) by (vm_compute; lia).
  destruct (C6_structure_listing_is_first_40_entries sample.large sample.paths
              eq_refl Hlen) as [Hshown [_ [_ Hlines]]].
  split; [reflexivity | ]. split; [exact Hlen | ]. split; [exact Hshown | ].
  apply Hlines. vm_compute. reflexivity.
Defined.

(** C7. When [languages] is empty or absent and [frameworks] is empty or
    absent, the summary block of the prompt reads "Not detected" after
    "- Primary Languages: " and after "- Frameworks/Tools: ", each on its line
    between the name line and the file count line. *)
Theorem C7_empty_languages_and_frameworks_read_not_detected :
  forall analysis,
    (languages analysis = None \/ languages analysis = Some []) ->
    (frameworks analysis = None \/ frameworks analysis = Some []) ->
    docgen_agent._build_prompt analysis =
      (template.persona ++ py.get (name analysis) "Unknown" ++ py.nl)
        ++ "- Primary Languages: Not detected" ++ py.nl
        ++ "- Frameworks/Tools: Not detected" ++ py.nl
        ++ ("- Total Files: " ++ py.str_of_int (py.get (fileCount analysis) 0%Z)
              ++ py.nl ++ "- Estimated Lines of Code: "
              ++ py.str_of_int (py.get (estimatedLOC analysis) 0%Z)
              ++ py.nl ++ py.nl ++ "PROJECT STRUCTURE:" ++ py.nl
              ++ py.join py.nl (firstn 40 (py.get (structure analysis) []))
              ++ template.requirements).
Proof.
  intros analysis Hlanguages Hframeworks.
  unfold docgen_agent._build_prompt, py.slice_to.
  replace (py.get (languages analysis) []) with (@nil string)
    by (destruct Hlanguages as [H | H]; rewrite H; reflexivity).
  replace (py.get (frameworks analysis) []) with (@nil string)
    by (destruct Hframeworks as [H | H]; rewrite H; reflexivity).
  cbn [py.join String.concat py.or py.truthy].
  prompt_eq.
Qed.

Lemma C7_empty_languages_and_frameworks_read_not_detected_witness :
  languages sample.large = None
  /\ frameworks sample.large = Some []
  /\ docgen_agent._build_prompt sample.large =
       (template.persona ++ "large" ++ py.nl)
         ++ "- Primary Languages: Not detected" ++ py.nl
         ++ "- Frameworks/Tools: Not detected" ++ py.nl
         ++ ("- Total Files: 100" ++ py.nl ++ "- Estimated Lines of Code: 3000"
               ++ py.nl ++ py.nl ++ "PROJECT STRUCTURE:" ++ py.nl
               ++ py.join py.nl (firstn 40 sample.paths)
               ++ template.requirements).
Proof.
  split; [reflexivity | ]. split; [reflexivity | ].
  apply (C7_empty_languages_and_frameworks_read_not_detected sample.large).
  - left. reflexivity.
  - right. reflexivity.
Defined.

(** C8. The prompt builder is a function of the analysis alone. It returns a
    prompt for every analysis; the same analysis gives the same prompt, byte
    for byte; and across any two runs of [generate] on it, whatever the
    provider, the credential and the process, every prompt sent is that one. *)
Theorem C8_prompt_is_a_function_of_the_analysis :
  forall analysis analysis',
    analysis = analysis' ->
    exists prompt,
      docgen_agent._build_prompt analysis = prompt
      /\ docgen_agent._build_prompt analysis' = prompt
      /\ forall provider provider' api_key api_key' p p',
           Forall (fun q => q = prompt)
             (prompts_sent
                (calls (docgen_agent.generate provider analysis api_key p)))
           /\ Forall (fun q => q = prompt)
                (prompts_sent
                   (calls (docgen_agent.generate provider' analysis' api_key' p'))).
Proof.
  intros analysis analysis' Hsame. subst analysis'.
  exists (docgen_agent._build_prompt analysis).
  split; [reflexivity | ]. split; [reflexivity | ].
  intros provider provider' api_key api_key' p p'.
  split; apply generate_sends_built_prompt.
Qed.

Lemma C8_prompt_is_a_function_of_the_analysis_witness :
  exists prompt,
    docgen_agent._build_prompt sample.demo = prompt
    /\ prompts_sent
         (calls (docgen_agent.generate sample.blank sample.demo (Some "key")
                   sample.fresh)) = [prompt]
    /\ prompts_sent
         (calls (docgen_agent.generate sample.slow sample.demo None
                   sample.with_env)) = [prompt].
Proof.
  destruct (C8_prompt_is_a_function_of_the_analysis sample.demo sample.demo eq_refl)
    as [prompt [Hbuilt [_ Hsent]]].
  exists prompt. split; [exact Hbuilt | ].
  destruct (Hsent sample.blank sample.slow (Some "key") None sample.fresh
              sample.with_env) as [Hfirst Hsecond].
  split.
  - remember (prompts_sent _) as sent eqn:Hrun in Hfirst |- *.
    assert (Hone : List.length sent = 1) by (subst sent; vm_compute; reflexivity).
    destruct sent as [ | q [ | q' sent]]; try discriminate Hone.
    inversion Hfirst; subst. reflexivity.
  - remember (prompts_sent _) as sent eqn:Hrun in Hsecond |- *.
    assert (Hone : List.length sent = 1) by (subst sent; vm_compute; reflexivity).
    destruct sent as [ | q [ | q' sent]]; try discriminate Hone.
    inversion Hsecond; subst. reflexivity.
Defined.

(** C10. Two analyses that agree on [name], [structure], [languages],
    [frameworks], [fileCount] and [estimatedLOC] give the same prompt: the
    builder reads neither [apiKey] nor [description], [dependencies] or
    [scripts]. Hence the text [generate] sends for one, under any credential,
    is the prompt of the other. *)
Theorem C10_prompt_ignores_api_key_and_optional_fields :
  forall analysis analysis',
    name analysis = name analysis' ->
    structure analysis = structure analysis' ->
    languages analysis = languages analysis' ->
    frameworks analysis = frameworks analysis' ->
    fileCount analysis = fileCount analysis' ->
    estimatedLOC analysis = estimatedLOC analysis' ->
    docgen_agent._build_prompt analysis = docgen_agent._build_prompt analysis'
    /\ forall provider api_key p,
         Forall (fun q => q = docgen_agent._build_prompt analysis')
           (prompts_sent
              (calls (docgen_agent.generate provider analysis api_key p))).
Proof.
  intros analysis analysis' Hname Hstructure Hlanguages Hframeworks Hfiles Hloc.
  assert (Hprompt : docgen_agent._build_prompt analysis
                    = docgen_agent._build_prompt analysis').
  { unfold docgen_agent._build_prompt.
    rewrite Hname, Hstructure, Hlanguages, Hframeworks, Hfiles, Hloc.
    reflexivity. }
  split; [exact Hprompt | ].
  intros provider api_key p. rewrite <- Hprompt.
  apply generate_sends_built_prompt.
Qed.

Lemma C10_prompt_ignores_api_key_and_optional_fields_witness :
  apiKey sample.large = Some "secret-key"
  /\ apiKey sample.large_bare = None
  /\ docgen_agent._build_prompt sample.large
     = docgen_agent._build_prompt sample.large_bare.
Proof.
  split; [reflexivity | ]. split; [reflexivity | ].
  apply (C10_prompt_ignores_api_key_and_optional_fields sample.large
           sample.large_bare); reflexivity.
Defined.


(** * Further properties *)

(** ** Trimming *)

Lemma drop_prefix_spec (q s rest : string) :
  py.drop_prefix q s = Some rest -> s = q ++ rest.
Proof.
  revert s. induction q as [ | a q IH]; intros s H.
  - cbn in H. injection H as H. subst rest. reflexivity.
  - destruct s as [ | b s]; [discriminate H | ]. cbn [py.drop_prefix] in H.
    destruct (Ascii.eqb_spec a b) as [Hab | Hab]; [ | discriminate H].
    subst b. cbn [append]. f_equal. apply IH. exact H.
Qed.

Lemma drop_prefix_append (q rest : string) :
  py.drop_prefix q (q ++ rest) = Some rest.
Proof.
  induction q as [ | a q IH]; [reflexivity | ].
  cbn [append py.drop_prefix]. rewrite Ascii.eqb_refl. exact IH.
Qed.

Lemma drop_any_spec (ps : list string) (s rest : string) :
  py.drop_any ps s = Some rest -> exists q, In q ps /\ s = q ++ rest.
Proof.
  induction ps as [ | q ps IH]; cbn [py.drop_any]; [discriminate | ].
  destruct (py.drop_prefix q s) as [r | ] eqn:Hdrop.
  - intros H. injection H as H. subst r. exists q. split; [left; reflexivity | ].
    apply drop_prefix_spec. exact Hdrop.
  - intros H. destruct (IH H) as [q' [Hin Heq]]. exists q'.
    split; [right; exact Hin | exact Heq].
Qed.

Lemma drop_any_append (ps : list string) (q rest : string) :
  In q ps -> py.drop_any ps (q ++ rest) <> None.
Proof.
  induction ps as [ | q' ps IH]; intros Hin; [contradiction | ].
  cbn [py.drop_any]. destruct (py.drop_prefix q' (q ++ rest)) eqn:Hdrop;
    [discriminate | ].
  destruct Hin as [Heq | Hin]; [ | exact (IH Hin)].
  subst q'. rewrite drop_prefix_append in Hdrop. discriminate Hdrop.
Qed.

Lemma made_of_app (ps : list string) (a b : string) :
  made_of ps a -> made_of ps b -> made_of ps (a ++ b).
Proof.
  induction 1 as [ | q s Hq _ IH]; intros Hb; [exact Hb | ].
  rewrite append_assoc. apply made_of_cons; [exact Hq | exact (IH Hb)].
Qed.

Lemma append_empty_r (s : string) : s ++ EmptyString = s.
Proof. induction s as [ | c s IH]; [reflexivity | cbn; rewrite IH; reflexivity]. Qed.

(** What [lstrip_with] removes is strings of [ps], in front. *)
Lemma lstrip_with_spec (ps : list string) (s : string) :
  exists pre, made_of ps pre /\ s = pre ++ py.lstrip_with ps s.
Proof.
  unfold py.lstrip_with. generalize (String.length s) as fuel. intros fuel.
  revert s. induction fuel as [ | fuel IH]; intros s.
  - exists EmptyString. split; [constructor | reflexivity].
  - cbn [py.lstrip_fuel]. destruct (py.drop_any ps s) as [rest | ] eqn:Hdrop.
    + destruct (drop_any_spec ps s rest Hdrop) as [q [Hq Hs]].
      destruct (IH rest) as [pre [Hpre Hrest]].
      exists (q ++ pre). split; [apply made_of_cons; assumption | ].
      rewrite append_assoc, <- Hrest. exact Hs.
    + exists EmptyString. split; [constructor | reflexivity].
Qed.

(** *** Reversal *)

Lemma list_ascii_of_string_app (a b : string) :
  list_ascii_of_string (a ++ b)
  = (list_ascii_of_string a ++ list_ascii_of_string b)%list.
Proof.
  induction a as [ | c a IH]; [reflexivity | ]. cbn. rewrite IH. reflexivity.
Qed.

Lemma string_of_list_ascii_app (l m : list ascii) :
  string_of_list_ascii (l ++ m)%list
  = string_of_list_ascii l ++ string_of_list_ascii m.
Proof.
  induction l as [ | c l IH]; [reflexivity | ]. cbn. rewrite IH. reflexivity.
Qed.

Lemma reverse_app (a b : string) :
  py.reverse (a ++ b) = py.reverse b ++ py.reverse a.
Proof.
  unfold py.reverse.
  rewrite list_ascii_of_string_app, rev_app_distr, string_of_list_ascii_app.
  reflexivity.
Qed.

Lemma reverse_involutive (s : string) : py.reverse (py.reverse s) = s.
Proof.
  unfold py.reverse.
  rewrite list_ascii_of_string_of_list_ascii, rev_involutive.
  apply string_of_list_ascii_of_string.
Qed.

Lemma made_of_reverse (ps : list string) (s : string) :
  made_of (map py.reverse ps) s -> made_of ps (py.reverse s).
Proof.
  induction 1 as [ | q s Hq _ IH]; [constructor | ].
  rewrite reverse_app. apply made_of_app; [exact IH | ].
  apply in_map_iff in Hq as [q' [Hq' Hin]]. subst q.
  rewrite reverse_involutive, <- (append_empty_r q').
  apply made_of_cons; [exact Hin | constructor].
Qed.

(** [rstrip] removes white space at the end, and leaves none there. *)
Lemma rstrip_spec (s : string) :
  (exists post, made_of py.whitespace post /\ s = py.rstrip s ++ post)
  /\ ~ ends_blank (py.rstrip s).
Proof.
  unfold py.rstrip. split.
  - destruct (lstrip_with_spec (map py.reverse py.whitespace) (py.reverse s))
      as [pre [Hpre Hs]].
    exists (py.reverse pre). split; [apply made_of_reverse; exact Hpre | ].
    rewrite <- reverse_app, <- Hs. symmetry. apply reverse_involutive.
  - intros [q [rest [Hq Hs]]].
    apply (f_equal py.reverse) in Hs.
    rewrite reverse_involutive, reverse_app in Hs.
    apply (drop_any_append (map py.reverse py.whitespace) (py.reverse q)
             (py.reverse rest)).
    + apply in_map. exact Hq.
    + rewrite <- Hs. apply lstrip_with_done. apply whitespace_not_empty.
Qed.

(** [strip] removes white space at both ends, and leaves none at either. *)
Lemma strip_spec (s : string) :
  (exists pre post,
     made_of py.whitespace pre /\ made_of py.whitespace post
     /\ s = pre ++ py.strip s ++ post)
  /\ ~ starts_blank (py.strip s)
  /\ ~ ends_blank (py.strip s).
Proof.
  unfold py.strip.
  destruct (lstrip_with_spec py.whitespace s) as [pre [Hpre Hs]].
  fold (py.lstrip s) in Hs.
  destruct (rstrip_spec (py.lstrip s)) as [[post [Hpost Hl]] Hend].
  split; [ | split].
  - exists pre, post. split; [exact Hpre | ]. split; [exact Hpost | ].
    rewrite <- Hl. exact Hs.
  - intros [q [rest [Hq Hr]]].
    apply (drop_any_append py.whitespace q (rest ++ post) Hq).
    rewrite <- append_assoc, <- Hr, <- Hl. apply lstrip_done.
  - exact Hend.
Qed.

(** ** The generation request *)

(** X1. Whatever the provider answers, and also when the request fails,
    [generate_content] makes exactly one generation request: to the model the
    client is bound to, with the prompt it was given, temperature 0.3,
    top-p 0.9, top-k 40 and at most 2048 output tokens, and no deadline. It
    leaves the process as it found it. *)
Theorem X1_generate_content_makes_one_request_with_fixed_sampling :
  forall provider self prompt timeout p,
    let r := gemini_client.generate_content provider self prompt timeout p in
    calls r =
      [GenerateContent (configured_api_key p)
         (genai.model_name (gemini_client.model self)) prompt
         {| genai.temperature := 3 # 10;
            genai.top_p := 9 # 10;
            genai.top_k := 40;
            genai.max_output_tokens := 2048 |}
         None]
    /\ after r = p.
Proof.
  intros provider self prompt timeout p r. subst r.
  exact (generate_content_calls provider self prompt timeout p).
Qed.

(** X2. Every failure of [generate_content] is an [Exception] whose
    message starts with "Gemini API error: "; a [ValueError], or the
    provider's own exception class, never reaches the caller. *)
Theorem X2_generate_content_failures_are_prefixed_Exceptions :
  forall provider self prompt timeout p e,
    outcome (gemini_client.generate_content provider self prompt timeout p) = inl e ->
    py.class e = "Exception"
    /\ exists cause, py.str e = "Gemini API error: " ++ cause.
Proof.
  intros provider self prompt timeout p e H.
  rewrite generate_content_outcome in H.
  destruct (reply_to provider self prompt p) as [e' | [[[[ | c t] | ]] | ]];
    try discriminate H; injection H as H; subst e;
    (split; [reflexivity | eexists; reflexivity]).
Qed.

Lemma X2_generate_content_failures_are_prefixed_Exceptions_witness :
  outcome (gemini_client.generate_content sample.unavailable sample.client "prompt"
             gemini_client.timeout_default sample.session)
    = inl (py.Exception "Gemini API error: Empty response from Gemini")
  /\ py.class (py.Exception "Gemini API error: Empty response from Gemini")
     = "Exception"
  /\ exists cause,
       py.str (py.Exception "Gemini API error: Empty response from Gemini")
       = "Gemini API error: " ++ cause.
Proof.
  split; [reflexivity | ].
  apply (X2_generate_content_failures_are_prefixed_Exceptions sample.unavailable
           sample.client "prompt" gemini_client.timeout_default sample.session).
  reflexivity.
Defined.

(** X3. When [generate_content] succeeds, the text it returns is the text of
    the response with white space removed at its two ends and nothing else
    changed: the response text is white space, then the returned text, then
    white space, and the returned text neither starts nor ends with white
    space. *)
Theorem X3_generate_content_returns_the_trimmed_text :
  forall provider self prompt timeout p readme,
    outcome (gemini_client.generate_content provider self prompt timeout p)
      = inr readme ->
    exists text pre post,
      reply_to provider self prompt p = inr (Some {| genai.text := Some text |})
      /\ made_of py.whitespace pre
      /\ made_of py.whitespace post
      /\ text = pre ++ readme ++ post
      /\ ~ starts_blank readme
      /\ ~ ends_blank readme.
Proof.
  intros provider self prompt timeout p readme H.
  rewrite generate_content_outcome in H.
  destruct (reply_to provider self prompt p) as [e' | [[[[ | c t] | ]] | ]];
    try discriminate H.
  injection H as H. subst readme.
  destruct (strip_spec (String c t)) as [[pre [post [Hpre [Hpost Htext]]]] [Hs He]].
  exists (String c t), pre, post. repeat split; assumption.
Qed.

Lemma X3_generate_content_returns_the_trimmed_text_witness :
  exists text pre post,
    reply_to scenario.padded sample.client "prompt" sample.session
      = inr (Some {| genai.text := Some text |})
    /\ made_of py.whitespace pre
    /\ made_of py.whitespace post
    /\ text = pre ++ ("# demo" ++ py.nl ++ "Text.") ++ post
    /\ ~ starts_blank ("# demo" ++ py.nl ++ "Text.")
    /\ ~ ends_blank ("# demo" ++ py.nl ++ "Text.").
Proof.
  apply (X3_generate_content_returns_the_trimmed_text scenario.padded sample.client
           "prompt" gemini_client.timeout_default sample.session).
  vm_compute. reflexivity.
Defined.

(** ** Construction of the client and the agent's run *)

Lemma init_calls_after provider api_key p :
  calls (gemini_client.__init__ provider api_key p) = [ListModels (Some api_key)]
  /\ after (gemini_client.__init__ provider api_key p) = configured_with api_key p.
Proof. rewrite init_run. split; reflexivity. Qed.

(** The run of [generate_with], by the outcome of the construction. *)
Lemma generate_with_cases provider analysis key p :
  let r := generate_with provider analysis key p in
  after r = configured_with key p
  /\ match outcome (gemini_client.__init__ provider key p) with
     | inl e => calls r = [ListModels (Some key)] /\ outcome r = inl e
     | inr gemini =>
         calls r =
           [ListModels (Some key);
            GenerateContent (Some key)
              (genai.model_name (gemini_client.model gemini))
              (docgen_agent._build_prompt analysis)
              gemini_client.generation_config None]
         /\ outcome r =
              outcome
                (gemini_client.generate_content provider gemini
                   (docgen_agent._build_prompt analysis)
                   gemini_client.timeout_default (configured_with key p))
     end.
Proof.
  destruct (init_calls_after provider key p) as [Hcalls Hafter].
  unfold generate_with, bind. cbv zeta.
  destruct (gemini_client.__init__ provider key p) as [cs p' [e | gemini]];
    cbn [calls after outcome] in *; subst cs p'.
  - repeat split.
  - destruct (generate_content_calls provider gemini
                (docgen_agent._build_prompt analysis)
                gemini_client.timeout_default (configured_with key p))
      as [Hcs Hp].
    destruct (gemini_client.generate_content provider gemini
                (docgen_agent._build_prompt analysis)
                gemini_client.timeout_default (configured_with key p))
      as [cs p' [e | readme]];
      cbn [calls after outcome ret] in *; subst cs p'; repeat split.
Qed.

(** When [__init__] succeeds, the model it bound is the first capable one of
    the listing. *)
Lemma init_success provider api_key p gemini :
  outcome (gemini_client.__init__ provider api_key p) = inr gemini ->
  exists before m rest,
    genai.list_models provider (Some api_key) = inr (before ++ m :: rest)%list
    /\ (forall b, In b before -> ~ capable b)
    /\ capable m
    /\ gemini_client.model gemini = {| genai.model_name := genai.name m |}.
Proof.
  rewrite init_run. cbn [outcome].
  destruct (genai.list_models provider (Some api_key)) as [e | models];
    [discriminate | ].
  induction models as [ | a models IH]; cbn [filter]; [discriminate | ].
  destruct (py.contains "generateContent" (genai.supported_generation_methods a))
    eqn:Ha.
  - intros H. injection H as H. subst gemini.
    exists [], a, models. repeat split.
    + intros b [].
    + apply contains_In. exact Ha.
  - intros H. destruct (IH H) as [before [m [rest [Hl [Hb [Hm Hg]]]]]].
    injection Hl as Hl. subst models.
    exists (a :: before), m, rest. repeat split; try assumption.
    intros b [Hba | Hin]; [ | exact (Hb b Hin)].
    subst b. intros Hc. apply contains_In in Hc. rewrite Hc in Ha. discriminate Ha.
Qed.

(** X4. [__init__] stores the credential before it lists the models and
    leaves it stored when it fails; it makes the one listing call, under the
    new credential, and never a generation request; and when the listing
    fails, the caller gets the provider's exception as it is, class and
    message unchanged. *)
Theorem X4_init_stores_the_credential_and_reraises_listing_errors :
  forall provider api_key p,
    let r := gemini_client.__init__ provider api_key p in
    calls r = [ListModels (Some api_key)]
    /\ configured_api_key (after r) = Some api_key
    /\ environ_GEMINI_API_KEY (after r) = environ_GEMINI_API_KEY p
    /\ (forall e,
          genai.list_models provider (Some api_key) = inl e -> outcome r = inl e).
Proof.
  intros provider api_key p r. subst r. rewrite init_run.
  repeat split. intros e He. cbn [outcome]. rewrite He. reflexivity.
Qed.

(** X5. A run of [generate] makes no call at all, or one listing of the
    models, or one listing followed by one generation request carrying the
    prompt built from the analysis and the fixed sampling parameters; all
    calls are made under the chosen credential. It never makes more than
    these two calls and never generates before it has listed. *)
Theorem X5_generate_lists_once_then_generates_at_most_once :
  forall provider analysis api_key p,
    let r := docgen_agent.generate provider analysis api_key p in
    calls r = []
    \/ exists key,
         py.or_opt api_key (environ_GEMINI_API_KEY p) = Some key
         /\ (calls r = [ListModels (Some key)]
             \/ exists model,
                  calls r =
                    [ListModels (Some key);
                     GenerateContent (Some key) model
                       (docgen_agent._build_prompt analysis)
                       gemini_client.generation_config None]).
Proof.
  intros provider analysis api_key p r. subst r. rewrite generate_by_key.
  destruct (py.or_opt api_key (environ_GEMINI_API_KEY p)) as [[ | c k] | ];
    try (left; reflexivity).
  right. exists (String c k). split; [reflexivity | ].
  destruct (generate_with_cases provider analysis (String c k) p) as [_ H].
  destruct (outcome (gemini_client.__init__ provider (String c k) p))
    as [e | gemini].
  - left. apply H.
  - right. eexists. apply H.
Qed.

(** X6. A generation request of [generate] only ever goes to a model the
    provider listed under the same credential as able to generate content:
    the first such model of the listing. *)
Theorem X6_generate_only_asks_the_first_capable_listed_model :
  forall provider analysis api_key p credential model prompt config deadline,
    In (GenerateContent credential model prompt config deadline)
       (calls (docgen_agent.generate provider analysis api_key p)) ->
    exists key before m rest,
      credential = Some key
      /\ genai.list_models provider (Some key) = inr (before ++ m :: rest)%list
      /\ (forall b, In b before -> ~ capable b)
      /\ capable m
      /\ model = genai.name m.
Proof.
  intros provider analysis api_key p credential model prompt config deadline.
  rewrite generate_by_key.
  destruct (py.or_opt api_key (environ_GEMINI_API_KEY p)) as [[ | c k] | ];
    try (intros []).
  destruct (generate_with_cases provider analysis (String c k) p) as [_ H].
  destruct (outcome (gemini_client.__init__ provider (String c k) p))
    as [e | gemini] eqn:Hinit; destruct H as [Hcalls _]; rewrite Hcalls.
  - intros [Hc | []]. discriminate Hc.
  - intros [Hc | [Hc | []]]; [discriminate Hc | ].
    injection Hc as Hk Hm _ _ _.
    destruct (init_success provider (String c k) p gemini Hinit)
      as [before [m [rest [Hl [Hb [Hcap Hg]]]]]].
    exists (String c k), before, m, rest.
    repeat split; try assumption; try (symmetry; assumption).
    rewrite <- Hm, Hg. reflexivity.
Qed.

Lemma X6_generate_only_asks_the_first_capable_listed_model_witness :
  exists key before m rest,
    Some "key" = Some key
    /\ genai.list_models scenario.padded (Some key) = inr (before ++ m :: rest)%list
    /\ (forall b, In b before -> ~ capable b)
    /\ capable m
    /\ "models/gemini-1.5-flash" = genai.name m.
Proof.
  apply (X6_generate_only_asks_the_first_capable_listed_model scenario.padded
           sample.demo (Some "key") sample.with_env (Some "key")
           "models/gemini-1.5-flash" (docgen_agent._build_prompt sample.demo)
           gemini_client.generation_config None).
  right. left. reflexivity.
Defined.

(** X7. When the client cannot be built (the listing fails, or lists no
    capable model), [generate] fails with the error of the construction as it
    is, not wrapped as an API error, after the one listing call: the prompt is
    never sent. *)
Theorem X7_generate_stops_when_the_client_cannot_be_built :
  forall provider analysis api_key p key e,
    py.or_opt api_key (environ_GEMINI_API_KEY p) = Some key ->
    key <> EmptyString ->
    outcome (gemini_client.__init__ provider key p) = inl e ->
    let r := docgen_agent.generate provider analysis api_key p in
    outcome r = inl e
    /\ calls r = [ListModels (Some key)]
    /\ prompts_sent (calls r) = [].
Proof.
  intros provider analysis api_key p key e Hkey Hne Hinit r. subst r.
  rewrite generate_by_key, Hkey.
  destruct key as [ | c k]; [contradiction | ].
  destruct (generate_with_cases provider analysis (String c k) p) as [_ H].
  rewrite Hinit in H. destruct H as [Hcalls Hout].
  rewrite Hcalls, Hout. repeat split.
Qed.

Lemma X7_generate_stops_when_the_client_cannot_be_built_witness :
  let r := docgen_agent.generate scenario.embeddings_only sample.demo None
             sample.with_env in
  outcome r = inl (py.ValueError "No models available that support generateContent")
  /\ calls r = [ListModels (Some "env-key")]
  /\ prompts_sent (calls r) = [].
Proof.
  apply (X7_generate_stops_when_the_client_cannot_be_built scenario.embeddings_only
           sample.demo None sample.with_env "env-key").
  - reflexivity.
  - discriminate.
  - reflexivity.
Defined.

(** X8. When the provider lists a capable model and answers the request to
    the first one with a text that is not empty, [generate] returns that text
    trimmed, after exactly the listing and that one request, and leaves the
    process configured with the chosen credential. *)
Theorem X8_generate_returns_the_trimmed_answer_of_the_first_capable_model :
  forall provider analysis api_key p key before m rest text,
    py.or_opt api_key (environ_GEMINI_API_KEY p) = Some key ->
    key <> EmptyString ->
    genai.list_models provider (Some key) = inr (before ++ m :: rest)%list ->
    (forall b, In b before -> ~ capable b) ->
    capable m ->
    genai.generate_content provider (Some key) (genai.name m)
      (docgen_agent._build_prompt analysis) gemini_client.generation_config None
      = inr (Some {| genai.text := Some text |}) ->
    text <> EmptyString ->
    let r := docgen_agent.generate provider analysis api_key p in
    outcome r = inr (py.strip text)
    /\ calls r =
         [ListModels (Some key);
          GenerateContent (Some key) (genai.name m)
            (docgen_agent._build_prompt analysis)
            gemini_client.generation_config None]
    /\ after r = configured_with key p.
Proof.
  intros provider analysis api_key p key before m rest text
    Hkey Hne Hlist Hbefore Hm Hreply Htext r. subst r.
  rewrite generate_by_key, Hkey.
  destruct key as [ | c k]; [contradiction | ].
  destruct (generate_with_cases provider analysis (String c k) p) as [Hafter H].
  assert (Hinit : outcome (gemini_client.__init__ provider (String c k) p)
                  = inr {| gemini_client.model :=
                             {| genai.model_name := genai.name m |} |}).
  { rewrite init_run. cbn [outcome]. rewrite Hlist, filter_first; [reflexivity | | ].
    - intros b Hb. apply not_capable_false. exact (Hbefore b Hb).
    - apply contains_In. exact Hm. }
  rewrite Hinit in H. destruct H as [Hcalls Hout].
  split; [ | split; [exact Hcalls | exact Hafter]].
  rewrite Hout, generate_content_outcome. unfold reply_to.
  cbn [configured_with configured_api_key gemini_client.model genai.model_name].
  rewrite Hreply. destruct text as [ | a text]; [contradiction | reflexivity].
Qed.

Lemma X8_generate_returns_the_trimmed_answer_of_the_first_capable_model_witness :
  let r := docgen_agent.generate scenario.padded sample.demo (Some "key")
             sample.with_env in
  outcome r = inr (py.strip ("  # demo" ++ py.nl ++ "Text. " ++ py.nl))
  /\ calls r =
       [ListModels (Some "key");
        GenerateContent (Some "key") (genai.name sample.flash)
          (docgen_agent._build_prompt sample.demo)
          gemini_client.generation_config None]
  /\ after r = configured_with "key" sample.with_env.
Proof.
  apply (X8_generate_returns_the_trimmed_answer_of_the_first_capable_model
           scenario.padded sample.demo (Some "key") sample.with_env "key"
           [sample.embedding] sample.flash [sample.pro]).
  - reflexivity.
  - discriminate.
  - reflexivity.
  - intros b [Hb | []]. subst b. unfold capable. cbn. intros [H | []]. discriminate H.
  - unfold capable. cbn. left. reflexivity.
  - reflexivity.
  - discriminate.
Defined.

(** X9. [generate] never changes the [GEMINI_API_KEY] variable of the
    environment. It leaves the process untouched when no credential is at
    hand; otherwise, whether it then succeeds or fails, the process ends
    configured with the chosen credential. *)
Theorem X9_generate_keeps_the_environment_and_stores_the_chosen_key :
  forall provider analysis api_key p,
    let r := docgen_agent.generate provider analysis api_key p in
    environ_GEMINI_API_KEY (after r) = environ_GEMINI_API_KEY p
    /\ after r =
         match py.or_opt api_key (environ_GEMINI_API_KEY p) with
         | Some (String c k) => configured_with (String c k) p
         | _ => p
         end.
Proof.
  intros provider analysis api_key p r. subst r. rewrite generate_by_key.
  destruct (py.or_opt api_key (environ_GEMINI_API_KEY p)) as [[ | c k] | ];
    try (split; reflexivity).
  destruct (generate_with_cases provider analysis (String c k) p) as [Hafter _].
  rewrite Hafter. split; reflexivity.
Qed.

(** ** The request handler *)


Lemma generate_content_success provider self prompt timeout p readme :
  outcome (gemini_client.generate_content provider self prompt timeout p)
    = inr readme ->
  ~ starts_blank readme /\ ~ ends_blank readme.
Proof.
  rewrite generate_content_outcome.
  destruct (reply_to provider self prompt p) as [e' | [[[[ | c t] | ]] | ]];
    intros H; try discriminate H; injection H as H; subst readme.
  apply strip_spec.
Qed.



(** X11. A request that carries a credential is served under that credential
    even when the environment holds another one: the handler makes at least
    the listing call, every call it makes carries the credential of the
    request, and the process ends configured with it. *)
Theorem X11_handler_serves_under_the_credential_of_the_request :
  forall provider analysis p key,
    app.apiKey analysis = Some key ->
    key <> EmptyString ->
    let s := app.generate_readme provider analysis p in
    hd_error (app.sent s) = Some (ListModels (Some key))
    /\ Forall (fun c => credential_of c = Some key) (app.sent s)
    /\ app.process_after s = configured_with key p.
Proof.
  intros provider analysis p key Hkey Hne s. subst s.
  unfold app.generate_readme. cbn [app.sent app.process_after].
  rewrite generate_by_key, Hkey.
  destruct key as [ | c k]; [contradiction | ].
  cbn [py.or_opt py.truthy_opt py.truthy].
  destruct (generate_with_run provider (app.model_dump analysis) (String c k) p)
    as [_ [Hhd [Hall _]]].
  destruct (generate_with_cases provider (app.model_dump analysis) (String c k) p)
    as [Hafter _].
  repeat split; assumption.
Qed.

Lemma X11_handler_serves_under_the_credential_of_the_request_witness :
  let s := app.generate_readme scenario.padded scenario.request sample.with_env in
  environ_GEMINI_API_KEY sample.with_env = Some "env-key"
  /\ hd_error (app.sent s) = Some (ListModels (Some "request-key"))
  /\ Forall (fun c => credential_of c = Some "request-key") (app.sent s)
  /\ app.process_after s = configured_with "request-key" sample.with_env.
Proof.
  split; [reflexivity | ].
  apply (X11_handler_serves_under_the_credential_of_the_request scenario.padded
           scenario.request sample.with_env "request-key").
  - reflexivity.
  - discriminate.
Defined.

(** X12. A README the handler returns was produced by exactly one listing
    and one generation request, and neither starts nor ends with white
    space. *)
Theorem X12_handler_returns_a_trimmed_readme_after_two_calls :
  forall provider analysis p response,
    let s := app.generate_readme provider analysis p in
    app.reply s = inr response ->
    (exists key model,
       app.sent s =
         [ListModels (Some key);
          GenerateContent (Some key) model
            (docgen_agent._build_prompt (app.model_dump analysis))
            gemini_client.generation_config None])
    /\ ~ starts_blank (app.readme response)
    /\ ~ ends_blank (app.readme response).
Proof.
  intros provider analysis p response s. subst s.
  unfold app.generate_readme. cbn [app.reply app.sent].
  rewrite generate_by_key.
  destruct (py.or_opt (app.apiKey analysis) (environ_GEMINI_API_KEY p))
    as [[ | c k] | ]; try (cbn; discriminate).
  destruct (generate_with_cases provider (app.model_dump analysis) (String c k) p)
    as [_ H].
  destruct (outcome (gemini_client.__init__ provider (String c k) p))
    as [e | gemini]; destruct H as [Hcalls Hout]; rewrite Hcalls, Hout;
    [discriminate | ].
  destruct (outcome (gemini_client.generate_content _ _ _ _ _))
    as [e | readme] eqn:Hgen; intros H; [discriminate H | ].
  injection H as H. subst response. cbn [app.readme].
  split; [eexists; eexists; reflexivity | ].
  exact (generate_content_success _ _ _ _ _ _ Hgen).
Qed.

Lemma X12_handler_returns_a_trimmed_readme_after_two_calls_witness :
  let s := app.generate_readme scenario.padded scenario.request sample.fresh in
  let response := {| app.readme := "# demo" ++ py.nl ++ "Text." |} in
  app.reply s = inr response
  /\ (exists key model,
        app.sent s =
          [ListModels (Some key);
           GenerateContent (Some key) model
             (docgen_agent._build_prompt (app.model_dump scenario.request))
             gemini_client.generation_config None])
  /\ ~ starts_blank (app.readme response)
  /\ ~ ends_blank (app.readme response).
Proof.
  assert (H : app.reply (app.generate_readme scenario.padded scenario.request
                           sample.fresh)
              = inr {| app.readme := "# demo" ++ py.nl ++ "Text." |})
    by (vm_compute; reflexivity).
  split; [exact H | ].
  exact (X12_handler_returns_a_trimmed_readme_after_two_calls scenario.padded
           scenario.request sample.fresh _ H).
Defined.

(** ** More on the prompt *)

Lemma length_append (a b : string) :
  String.length (a ++ b) = String.length a + String.length b.
Proof.
  induction a as [ | c a IH]; [reflexivity | ]. cbn. rewrite IH. reflexivity.
Qed.

Lemma join_length_bound (sep : string) (items : list string) (bound : nat) :
  (forall e, In e items -> String.length e <= bound) ->
  String.length (py.join sep items)
  <= List.length items * (bound + String.length sep).
Proof.
  unfold py.join. induction items as [ | x items IH]; intros H; [cbn; lia | ].
  assert (Hx : String.length x <= bound) by (apply H; left; reflexivity).
  assert (Hrest : String.length (String.concat sep items)
                  <= List.length items * (bound + String.length sep)).
  { apply IH. intros e He. apply H. right. exact He. }
  destruct items as [ | y items]; [cbn; lia | ].
  change (String.concat sep (x :: y :: items))
    with (x ++ sep ++ String.concat sep (y :: items)).
  rewrite !length_append. cbn [List.length] in *. lia.
Qed.

Lemma or_join_cases (items : list string) :
  py.or (py.join ", " items) "Not detected" =
    match items with
    | [] | [EmptyString] => "Not detected"
    | _ => py.join ", " items
    end.
Proof.
  unfold py.join, py.or.
  destruct items as [ | x [ | y items]]; [reflexivity | | ].
  - destruct x; reflexivity.
  - change (String.concat ", " (x :: y :: items))
      with (x ++ ", " ++ String.concat ", " (y :: items)).
    destruct x; reflexivity.
Qed.

(** X13. When [structure] has at most 40 entries, the prompt lists all of
    them, in their order, between the "PROJECT STRUCTURE:" line and the
    requirements, whatever else the analysis holds; when there is at least one
    entry and none holds a line feed, the lines of the listing are the
    entries. *)
Theorem X13_short_structure_is_listed_in_full :
  forall analysis entries,
    structure analysis = Some entries ->
    List.length entries <= 40 ->
    (exists head,
       docgen_agent._build_prompt analysis =
         head ++ "PROJECT STRUCTURE:" ++ py.nl ++ py.join py.nl entries
           ++ template.requirements
       /\ docgen_agent._build_prompt (with_structure analysis None) =
            head ++ "PROJECT STRUCTURE:" ++ py.nl ++ template.requirements)
    /\ (entries <> [] -> forallb one_line entries = true ->
        lines (py.join py.nl entries) = entries).
Proof.
  intros analysis entries Hstructure Hlen. split.
  - destruct (build_prompt_structure analysis) as [head Hhead].
    exists head. split.
    + rewrite <- (with_structure_same analysis) at 1.
      rewrite Hhead, Hstructure. cbn [py.get].
      rewrite firstn_all2; [reflexivity | exact Hlen].
    + rewrite Hhead. reflexivity.
  - apply lines_join.
Qed.

Lemma X13_short_structure_is_listed_in_full_witness :
  (exists head,
     docgen_agent._build_prompt sample.demo =
       head ++ "PROJECT STRUCTURE:" ++ py.nl ++ py.join py.nl ["a.py"; "b.py"]
         ++ template.requirements
     /\ docgen_agent._build_prompt (with_structure sample.demo None) =
          head ++ "PROJECT STRUCTURE:" ++ py.nl ++ template.requirements)
  /\ (["a.py"; "b.py"] <> [] -> forallb one_line ["a.py"; "b.py"] = true ->
      lines (py.join py.nl ["a.py"; "b.py"]) = ["a.py"; "b.py"]).
Proof.
  apply (X13_short_structure_is_listed_in_full sample.demo ["a.py"; "b.py"]).
  - reflexivity.
  - cbn. lia.
Defined.

(** X14. In the summary block, the languages line and the frameworks line
    each show the entries joined by a comma and a space; they show
    "Not detected" when the key is absent, when the list is empty, and also
    when the list holds one empty string. The name line shows "Unknown" and
    the two counts show 0 when their keys are absent. *)
Theorem X14_summary_block_fields :
  forall analysis,
    docgen_agent._build_prompt analysis =
      (template.persona ++ py.get (name analysis) "Unknown" ++ py.nl)
        ++ "- Primary Languages: " ++ shown_field (languages analysis) ++ py.nl
        ++ "- Frameworks/Tools: " ++ shown_field (frameworks analysis) ++ py.nl
        ++ ("- Total Files: " ++ py.str_of_int (py.get (fileCount analysis) 0%Z)
              ++ py.nl ++ "- Estimated Lines of Code: "
              ++ py.str_of_int (py.get (estimatedLOC analysis) 0%Z)
              ++ py.nl ++ py.nl ++ "PROJECT STRUCTURE:" ++ py.nl
              ++ py.join py.nl (firstn 40 (py.get (structure analysis) []))
              ++ template.requirements)
    /\ (forall items,
          shown_field items =
            match items with
            | None | Some [] | Some [EmptyString] => "Not detected"
            | Some entries => py.join ", " entries
            end)
    /\ py.str_of_int 0 = "0".
Proof.
  intros analysis. split; [ | split; [ | reflexivity]].
  - unfold docgen_agent._build_prompt, shown_field, py.slice_to. prompt_eq.
  - intros items. unfold shown_field.
    destruct items as [entries | ]; [ | reflexivity].
    cbn [py.get]. rewrite or_join_cases.
    destruct entries as [ | [ | c x] [ | y entries]]; reflexivity.
Qed.

(** X15. The size of the prompt is 3014 bytes of fixed text plus the sizes of
    the name, of the two summary fields, of the two counts and of the
    structure listing; when each of the first 40 entries of the structure has
    at most [bound] bytes, the listing has at most [40 * (bound + 1)] bytes,
    however many and however long the later entries are. *)
Theorem X15_prompt_size :
  forall analysis bound,
    (forall e,
       In e (firstn 40 (py.get (structure analysis) [])) ->
       String.length e <= bound) ->
    let listing := py.join py.nl (firstn 40 (py.get (structure analysis) [])) in
    String.length (docgen_agent._build_prompt analysis) =
      3014 + String.length (py.get (name analysis) "Unknown")
        + String.length (shown_field (languages analysis))
        + String.length (shown_field (frameworks analysis))
        + String.length (py.str_of_int (py.get (fileCount analysis) 0%Z))
        + String.length (py.str_of_int (py.get (estimatedLOC analysis) 0%Z))
        + String.length listing
    /\ String.length listing <= 40 * (bound + 1).
Proof.
  intros analysis bound Hbound listing. split.
  - unfold docgen_agent._build_prompt, shown_field, py.slice_to. subst listing.
    rewrite !length_append.
    replace (String.length template.persona) with 175 by (vm_compute; reflexivity).
    replace (String.length template.requirements) with 2731
      by (vm_compute; reflexivity).
    cbn [String.length]. lia.
  - subst listing.
    pose proof (join_length_bound py.nl _ bound Hbound) as H.
    pose proof (firstn_le_length 40 (py.get (structure analysis) [])) as Hn.
    change (String.length py.nl) with 1 in H. nia.
Qed.

Lemma X15_prompt_size_witness :
  let listing := py.join py.nl (firstn 40 sample.paths) in
  String.length (docgen_agent._build_prompt sample.large) =
    3014 + String.length "large"
      + String.length (shown_field None)
      + String.length (shown_field (Some []))
      + String.length (py.str_of_int 100)
      + String.length (py.str_of_int 3000)
      + String.length listing
  /\ String.length listing <= 40 * (18 + 1).
Proof.
  apply (X15_prompt_size sample.large 18).
  intros e He. vm_compute in He.
  repeat (destruct He as [He | He]; [subst e; vm_compute; lia | ]).
  contradiction.
Defined.

(** ** Empty keys and blank answers *)

(** X16. A supplied key that is the empty string is treated exactly as no
    supplied key: the two runs of [generate] are the same, calls, final
    process and outcome. *)
Theorem X16_empty_supplied_key_is_no_key :
  forall provider analysis api_key p,
    py.truthy_opt api_key = false ->
    docgen_agent.generate provider analysis api_key p
    = docgen_agent.generate provider analysis None p.
Proof.
  intros provider analysis api_key p Hkey.
  rewrite !generate_by_key. unfold py.or_opt. rewrite Hkey. reflexivity.
Qed.

Lemma X16_empty_supplied_key_is_no_key_witness :
  docgen_agent.generate scenario.padded sample.demo (Some EmptyString) sample.with_env
  = docgen_agent.generate scenario.padded sample.demo None sample.with_env.
Proof.
  apply (X16_empty_supplied_key_is_no_key scenario.padded sample.demo
           (Some EmptyString) sample.with_env).
  reflexivity.
Defined.

Lemma append_cancel_l (q a b : string) : q ++ a = q ++ b -> a = b.
Proof.
  induction q as [ | c q IH]; intros H; [exact H | ].
  cbn [append] in H. injection H as H. exact (IH H).
Qed.

(** Of two strings that start one same text, one starts the other. *)
Lemma append_prefix_cases (q q' a b : string) :
  q ++ a = q' ++ b ->
  py.drop_prefix q q' <> None \/ py.drop_prefix q' q <> None.
Proof.
  revert q'. induction q as [ | c q IH]; intros q' H.
  - left. cbn. discriminate.
  - destruct q' as [ | c' q']; [right; cbn; discriminate | ].
    cbn [append] in H. injection H as Hc H. subst c'.
    cbn [py.drop_prefix]. rewrite Ascii.eqb_refl. exact (IH q' H).
Qed.

(** No white space code point starts another one. *)
Lemma whitespace_prefix_free (q q' : string) :
  In q py.whitespace -> In q' py.whitespace ->
  py.drop_prefix q q' <> None -> q = q'.
Proof.
  intros Hq Hq'.
  assert (Htable :
    forallb
      (fun x =>
         forallb
           (fun y =>
              String.eqb x y
              || match py.drop_prefix x y with None => true | Some _ => false end)
           py.whitespace)
      py.whitespace = true) by (vm_compute; reflexivity).
  rewrite forallb_forall in Htable. specialize (Htable q Hq).
  rewrite forallb_forall in Htable. specialize (Htable q' Hq').
  apply orb_true_iff in Htable as [Heq | Hnone].
  - intros _. apply String.eqb_eq. exact Heq.
  - intros H. destruct (py.drop_prefix q q'); [discriminate Hnone | contradiction].
Qed.

(** A text made of white space splits into white space in one way only. *)
Lemma made_of_whitespace_rest (pre x : string) :
  made_of py.whitespace pre -> made_of py.whitespace (pre ++ x) ->
  made_of py.whitespace x.
Proof.
  induction 1 as [ | q s Hq Hs IH]; intros H; [exact H | ].
  rewrite append_assoc in H.
  remember (q ++ s ++ x) as t eqn:Ht.
  destruct H as [ | q' s' Hq' Hs'].
  - destruct q as [ | c q]; [ | discriminate Ht].
    exfalso. destruct whitespace_not_empty as [Hne _].
    rewrite Forall_forall in Hne. exact (Hne _ Hq eq_refl).
  - assert (Hsame : q' = q).
    { destruct (append_prefix_cases _ _ _ _ Ht) as [Hp | Hp].
      - apply (whitespace_prefix_free q' q Hq' Hq Hp).
      - symmetry. apply (whitespace_prefix_free q q' Hq Hq' Hp). }
    subst q'. apply append_cancel_l in Ht. subst s'. exact (IH Hs').
Qed.

(** Trimming a text made of white space leaves nothing. *)
Lemma strip_blank (t : string) : made_of py.whitespace t -> py.strip t = EmptyString.
Proof.
  intros Ht.
  destruct (lstrip_with_spec py.whitespace t) as [pre [Hpre Hsplit]].
  fold (py.lstrip t) in Hsplit.
  assert (Hrest : made_of py.whitespace (py.lstrip t)).
  { apply (made_of_whitespace_rest pre); [exact Hpre | ].
    rewrite <- Hsplit. exact Ht. }
  assert (Hempty : py.lstrip t = EmptyString).
  { remember (py.lstrip t) as rest eqn:Hl.
    destruct Hrest as [ | q s Hq _]; [reflexivity | ].
    exfalso. apply (drop_any_append py.whitespace q s Hq).
    rewrite Hl. apply lstrip_done. }
  unfold py.strip. rewrite Hempty. reflexivity.
Qed.

(** X17. [generate_content] succeeds with the empty string exactly when the
    response carries a text that is not empty and is made of white space
    only: such a text passes the emptiness test and is trimmed to nothing. No
    other response gives an empty success. *)
Theorem X17_empty_success_exactly_on_blank_text :
  forall provider self prompt timeout p,
    outcome (gemini_client.generate_content provider self prompt timeout p)
      = inr EmptyString
    <-> exists text,
          reply_to provider self prompt p = inr (Some {| genai.text := Some text |})
          /\ text <> EmptyString
          /\ made_of py.whitespace text.
Proof.
  intros provider self prompt timeout p. rewrite generate_content_outcome. split.
  - destruct (reply_to provider self prompt p) as [e | [[[[ | c t] | ]] | ]];
      intros H; try discriminate H.
    injection H as H. exists (String c t).
    split; [reflexivity | ]. split; [discriminate | ].
    destruct (strip_spec (String c t)) as [[pre [post [Hpre [Hpost Htext]]]] _].
    rewrite H in Htext. cbn [append] in Htext. rewrite Htext.
    apply made_of_app; assumption.
  - intros [text [Hreply [Hne Hblank]]]. rewrite Hreply.
    destruct text as [ | c t]; [contradiction | ].
    rewrite (strip_blank _ Hblank). reflexivity.
Qed.

(** X18. A request without a credential of its own, served by a process
    whose environment holds none either, is answered with status 500 and the
    missing-key message; the handler makes no call and leaves the process as
    it was. *)
Theorem X18_handler_without_any_credential :
  forall provider analysis p,
    py.truthy_opt (app.apiKey analysis) = false ->
    py.truthy_opt (environ_GEMINI_API_KEY p) = false ->
    app.generate_readme provider analysis p =
      {| app.sent := [];
         app.process_after := p;
         app.reply :=
           inl {| app.status_code := 500;
                  app.detail := docgen_agent.missing_key_message |} |}.
Proof.
  intros provider analysis p Hkey Henv. unfold app.generate_readme.
  rewrite generate_by_key. unfold py.or_opt. rewrite Hkey.
  destruct (environ_GEMINI_API_KEY p) as [[ | c k] | ];
    [reflexivity | discriminate Henv | reflexivity].
Qed.

Lemma X18_handler_without_any_credential_witness :
  app.generate_readme scenario.padded scenario.request_without_key sample.fresh =
    {| app.sent := [];
       app.process_after := sample.fresh;
       app.reply :=
         inl {| app.status_code := 500;
                app.detail := docgen_agent.missing_key_message |} |}.
Proof.
  apply (X18_handler_without_any_credential scenario.padded
           scenario.request_without_key sample.fresh); reflexivity.
Defined.
